(** * flotta-device-worker-ng: the envelope client and the profile manager

    A shallow embedding of [internal/client/http/client.go] (package
    [client]) and of the profile manager's control loop (package [state]),
    with the properties its specification states about them.

    Conventions of the embedding:
    - a Go [[]byte] is a [list Byte.byte]; the nil slice and the empty slice
      are both [[]] (the code only compares them with [bytes.Equal], which
      does not tell them apart);
    - a Go [error] is an [option string]: [None] is [nil], [Some msg] is an
      error whose [Error()] text is [msg]; [fmt.Errorf] with [%w] or [%s]
      splices the text of the wrapped error;
    - a Go [int] is a [Z];
    - the value an [interface{}] holds after [json.Unmarshal] is an [any];
    - a Go function that returns a pointer and an error and, at each of its return
      statements, either a non-nil pointer with a nil error or a nil pointer
      with an error, returns a sum [T + string]; one that returns a struct
      value beside the error returns a pair;
    - a pointer receiver that is mutated ([*Client], [*Manager]) is passed in
      and returned; the process-wide [zap] logger is a [Log] passed in and
      returned;
    - the packages the code calls but that are not in the sources
      ([net/url], [crypto/tls], [crypto/x509], [encoding/pem],
      [encoding/json], [net/http], the request builder, the entities) are
      the fields of an [Entities] and of a [Platform], over which every
      theorem is quantified. *)

From Stdlib Require Import ZArith String Ascii List Lia DecimalString.
From stdpp Require Import base gmap strings list.

Set Warnings "-register-all".
Open Scope Z_scope.
Open Scope string_scope.
Open Scope list_scope.

(** ** Go preliminaries *)

Definition bytes := list Byte.byte.

Definition error := option string.

Abbreviation Log := (list string).

(** [bytes.Equal]. *)
Fixpoint bytes_Equal (a b : bytes) : bool :=
  match a, b with
  | [], [] => true
  | x :: a', y :: b' => Byte.eqb x y && bytes_Equal a' b'
  | _, _ => false
  end.

(** [[]byte(s)], which is what [bytes.NewBufferString(s).Bytes()] yields. *)
Definition bytes_of_string (s : string) : bytes := list_byte_of_string s.

(** The [%d] verb of [fmt] on an [int]. *)
Definition itoa (n : Z) : string := NilZero.string_of_int (Z.to_int n).

(** The dynamic value of an [interface{}] filled by [encoding/json]:
    [nil], [bool], [float64] (kept as its IEEE-754 binary64 bit pattern),
    [string], [[]interface{}] and [map[string]interface{}]. *)
Inductive any : Type :=
  | ANil
  | ABool (b : bool)
  | AFloat64 (bits : Z)
  | AString (s : string)
  | ASlice (l : list any)
  | AMap (m : gmap string any).

(** What a Go call leaves behind: its results, or a run-time panic. *)
Inductive Outcome (A : Type) : Type :=
  | Returns (a : A)
  | Panics (msg : string).
Arguments Returns {A} a.
Arguments Panics {A} msg.

(** ** [crypto/...] values read by the client *)

Record x509_Certificate := { Raw : bytes }.

Record ecdsa_PrivateKey := { ecdsa_D : Z }.

Record rsa_PrivateKey := { rsa_N : Z; rsa_D : Z }.

(** [crypto.PrivateKey] is an empty interface; [createTLSConfig] switches on
    its dynamic type. *)
Inductive crypto_PrivateKey :=
  | KeyECDSA (k : ecdsa_PrivateKey)
  | KeyRSA (k : rsa_PrivateKey)
  | KeyOther.

Definition x509_CertPool := list x509_Certificate.

(** ** The certificate manager *)

Module certificate.

(** Modelled from the spec: package [internal/certificate] is not among
    the sources.  The client consumes it through [Signature() -> bytes]
    (the current fingerprint) and [GetCertificates() -> (CA root set, leaf
    certificate, private key)]; a [Manager] value is the manager's content
    at the time of a call. *)
Record Manager := {
  signature : bytes;
  caRoot : x509_CertPool;
  cert : x509_Certificate;
  key : crypto_PrivateKey;
}.

Definition Signature (m : Manager) : bytes := signature m.

Definition GetCertificates (m : Manager)
  : x509_CertPool * x509_Certificate * crypto_PrivateKey :=
  (caRoot m, cert m, key m).

End certificate.

(** ** [net/http] and [crypto/tls] values *)

(** [tls.Certificate]: the chain and the key. *)
Record tls_Certificate := {
  Certificate : list bytes;
  PrivateKey : crypto_PrivateKey;
}.

(** [tls.Config], the two fields the client sets. *)
Record tls_Config := {
  RootCAs : x509_CertPool;
  Certificates : list tls_Certificate;
}.

(** [*http.Response]: the status code and what [ioutil.ReadAll] gets out of
    the body, the bytes or the read error. *)
Record http_Response := {
  StatusCode : Z;
  Body : bytes + string;
}.

(** [models.MessageResponse] of flotta-operator; the client reads only
    [Content]. *)
Record models_MessageResponse := { Content : any }.

(** [entities.RegistrationResponse]. *)
Record RegistrationResponse := { SignedCSR : bytes }.

(** The types the client handles without looking inside. *)
Record Entities := {
  http_Request : Type;
  entities_EnrolementInfo : Type;
  entities_RegistrationInfo : Type;
  entities_Heartbeat : Type;
  models_DeviceConfiguration : Type;
  entities_DeviceConfiguration : Type;
}.

(** ** Package [client] *)

Module client.

Section Client.

Context {E : Entities}.

(** [http.RoundTripper]: one request in, a response or an error out, and
    whatever the round trip writes to the log on the way. *)
Definition RoundTripper : Type :=
  http_Request E -> Log -> (http_Response + string) * Log.

(** transportWrapper is a wrapper for transport. It can be used as a
    middleware. *)
Definition transportWrapper : Type := RoundTripper -> RoundTripper.

(** [http.Client]: [Timeout] in nanoseconds, as a [time.Duration]. *)
Record http_Client := {
  Transport : option RoundTripper;
  Timeout : Z;
}.

Definition time_Second : Z := 1000000000.

(** The message types and actions of the request builder. *)
Inductive messageType := postDataMessageForDeviceType | getDataMessageForDeviceType.

Inductive actionType :=
  enrolActionType | registerActionType | heartbeatActionType | configurationActionType.

Inductive payload :=
  | EnrolBody (i : entities_EnrolementInfo E)
  | RegisterBody (i : entities_RegistrationInfo E)
  | HeartbeatBody (h : entities_Heartbeat E).

(** What the calls chained on [newRequestBuilder()] have set when [Build]
    is reached. *)
Record requestBuilder := {
  b_type : option messageType;
  b_action : option actionType;
  b_headers : list (string * string);
  b_url : string;
  b_body : option payload;
}.

Definition newRequestBuilder : requestBuilder :=
  {| b_type := None; b_action := None; b_headers := []; b_url := ""; b_body := None |}.

Definition Type_ (t : messageType) (b : requestBuilder) : requestBuilder :=
  {| b_type := Some t; b_action := b_action b; b_headers := b_headers b;
     b_url := b_url b; b_body := b_body b |}.

Definition Action (a : actionType) (b : requestBuilder) : requestBuilder :=
  {| b_type := b_type b; b_action := Some a; b_headers := b_headers b;
     b_url := b_url b; b_body := b_body b |}.

Definition Header (k v : string) (b : requestBuilder) : requestBuilder :=
  {| b_type := b_type b; b_action := b_action b; b_headers := b_headers b ++ [(k, v)];
     b_url := b_url b; b_body := b_body b |}.

Definition Url (u : string) (b : requestBuilder) : requestBuilder :=
  {| b_type := b_type b; b_action := b_action b; b_headers := b_headers b;
     b_url := u; b_body := b_body b |}.

Definition Body_ (p : payload) (b : requestBuilder) : requestBuilder :=
  {| b_type := b_type b; b_action := b_action b; b_headers := b_headers b;
     b_url := b_url b; b_body := Some p |}.

(** The foreign functions.  [url_Parse] keeps of the [*url.URL] the text
    its [String()] renders; [pem_Encode] gives what the fresh buffer holds
    after the call; [http_Transport cfg] is the round trip of
    [&http.Transport{Proxy: http.ProxyFromEnvironment, TLSClientConfig: cfg}];
    [logTransportWrapper_Wrap], [Build] and [configurationModel2Entity] are
    functions of this package whose files are not among the sources. *)
Record Platform := {
  url_Parse : string -> string + string;
  pem_Encode : string -> bytes -> bytes;
  x509_MarshalECPrivateKey : ecdsa_PrivateKey -> bytes;
  x509_MarshalPKCS1PrivateKey : rsa_PrivateKey -> bytes;
  tls_X509KeyPair : bytes -> bytes -> tls_Certificate + string;
  http_Transport : option tls_Config -> RoundTripper;
  http_DefaultTransport : RoundTripper;
  json_UnmarshalMessage : bytes -> models_MessageResponse + string;
  json_Marshal : any -> bytes + string;
  json_UnmarshalConfiguration : bytes -> models_DeviceConfiguration E + string;
  emptyDeviceConfiguration : entities_DeviceConfiguration E;
  logTransportWrapper_Wrap : transportWrapper;
  Build : requestBuilder -> http_Request E + string;
  configurationModel2Entity :
    models_DeviceConfiguration E -> entities_DeviceConfiguration E;
}.

Context (P : Platform).

Definition certificateKey : string := "certificate".
Definition rootUrl : string := "/api/flotta-management/v1".

(** The [*certificate.Manager] the client points to is not a field here:
    its content changes behind the client's back, so every operation takes
    the content [cm] it finds at the time of the call. *)
Record Client := {
  certificateSignature : bytes;
  serverURL : string;
  transportWrappers : list transportWrapper;
  transport : option RoundTripper;
}.

Definition New (path : string) (certManager : option certificate.Manager)
  : option Client * error :=
  match certManager with
  | None => (None, Some "Certificate manager is missing")
  | Some _ =>
    match url_Parse P path with
    | inr err => (None, Some ("Server address error: " +:+ err))
    | inl url =>
      let transportWrapper := [] ++ [logTransportWrapper_Wrap P] in
      (Some {| serverURL := url;
               certificateSignature := [];
               transportWrappers := transportWrapper;
               transport := None |}, None)
    end
  end.

Definition createTLSConfig (cm : certificate.Manager) : option tls_Config * error :=
  let '(caRoot, cert, key) := certificate.GetCertificates cm in
  let certPEM := pem_Encode P "CERTIFICATE" (Raw cert) in
  let privKeyPEM :=
    match key with
    | KeyECDSA t => pem_Encode P "EC PRIVATE KEY" (x509_MarshalECPrivateKey P t)
    | KeyRSA t => pem_Encode P "RSA PRIVATE KEY" (x509_MarshalPKCS1PrivateKey P t)
    | KeyOther => []
    end in
  match tls_X509KeyPair P certPEM privKeyPEM with
  | inr err => (None, Some ("cannot create x509 key pair: " +:+ err))
  | inl cc => (Some {| RootCAs := caRoot; Certificates := [cc] |}, None)
  end.

(** The loop [for i := len(ws) - 1; i >= 0; i-- { result = ws[i](result) }],
    with [n] standing for [i + 1].  The index is in range throughout; the
    [None] branch is there for totality only. *)
Fixpoint wrapBackwards (ws : list transportWrapper) (n : nat) (result : RoundTripper)
  : RoundTripper :=
  match n with
  | O => result
  | S i =>
    wrapBackwards ws i
      (match ws !! i with Some w => w result | None => result end)
  end.

Definition createTransport (c : Client) (cm : certificate.Manager)
  : RoundTripper * error :=
  let '(tlsConfig, err) := createTLSConfig cm in
  let result := http_Transport P tlsConfig in
  let result := wrapBackwards (transportWrappers c) (length (transportWrappers c)) result in
  (result, err).

Definition recreateMsg : string := "certificates changed. recreate transport".

(** getClient returns a real http.Client created with our transport.
    It checks if certifcates signatures changed and if true it recreates a
    new transport. *)
Definition getClient (c : Client) (cm : certificate.Manager) (log : Log)
  : (http_Client + string) * Client * Log :=
  if negb (bytes_Equal (certificateSignature c) (certificate.Signature cm)) then
    let log := log ++ [recreateMsg] in
    let '(t, err) := createTransport c cm in
    match err with
    | Some err => (inr err, c, log)
    | None =>
      let c := {| certificateSignature := certificate.Signature cm;
                  serverURL := serverURL c;
                  transportWrappers := transportWrappers c;
                  transport := Some t |} in
      (inl {| Transport := transport c; Timeout := 2 * time_Second |}, c, log)
    end
  else
    (inl {| Transport := transport c; Timeout := 2 * time_Second |}, c, log).

(** [Do] of [http.Client], as far as the client depends on it: a nil
    [Transport] means [http.DefaultTransport]; the result is a response or
    an error, never both nil.  Redirects and the timer are left out. *)
Definition http_Client_Do (client : http_Client) (request : http_Request E) (log : Log)
  : (http_Response + string) * Log :=
  match Transport client with
  | Some t => t request log
  | None => http_DefaultTransport P request log
  end.

Definition do (c : Client) (cm : certificate.Manager) (request : http_Request E) (log : Log)
  : (http_Response + string) * Client * Log :=
  match getClient c cm log with
  | (inr err, c, log) => (inr err, c, log)
  | (inl client, c, log) =>
    let '(r, log) := http_Client_Do client request log in (r, c, log)
  end.

(** [fmt.Sprintf] with the pattern ["%s/%s/data/%s/" + dir] the four
    operations use. *)
Definition Sprintf_data (server root deviceID dir : string) : string :=
  server +:+ "/" +:+ root +:+ "/data/" +:+ deviceID +:+ "/" +:+ dir.

Local Notation "b '.>' f" := (f b) (at level 45, left associativity, only parsing).

Definition enrolRequest (c : Client) (deviceID : string)
    (enrolInfo : entities_EnrolementInfo E) : requestBuilder :=
  newRequestBuilder
    .> Type_ postDataMessageForDeviceType
    .> Action enrolActionType
    .> Header "Content-Type" "application/json"
    .> Url (Sprintf_data (serverURL c) rootUrl deviceID "out")
    .> Body_ (EnrolBody enrolInfo).

Definition Enrol (c : Client) (cm : certificate.Manager) (deviceID : string)
    (enrolInfo : entities_EnrolementInfo E) (log : Log) : error * Client * Log :=
  match Build P (enrolRequest c deviceID enrolInfo) with
  | inr err => (Some ("cannot create enrollment request '" +:+ err +:+ "'"), c, log)
  | inl request =>
    match do c cm request log with
    | (inr err, c, log) => (Some ("cannot enrol device '" +:+ err +:+ "'"), c, log)
    | (inl resp, c, log) =>
      if (400 <=? StatusCode resp)%Z then
        (Some ("cannot enrol device. code: " +:+ itoa (StatusCode resp)), c, log)
      else (None, c, log)
    end
  end.

Definition processResponse (res : http_Response) : models_MessageResponse * error :=
  match Body res with
  | inr err => ({| Content := ANil |}, Some ("cannot read response body '" +:+ err +:+ "'"))
  | inl data =>
    match json_UnmarshalMessage P data with
    | inr err =>
      ({| Content := ANil |},
       Some ("cannot read marshal body into message response '" +:+ err +:+ "'"))
    | inl message => (message, None)
    end
  end.

(** The name of a dynamic type, as a failed type assertion prints it. *)
Definition typeName (v : any) : string :=
  match v with
  | ANil => "nil"
  | ABool _ => "bool"
  | AFloat64 _ => "float64"
  | AString _ => "string"
  | ASlice _ => "[]interface {}"
  | AMap _ => "map[string]interface {}"
  end.

(** [v.(string)], the one-result form: it panics on any other type. *)
Definition assertString (v : any) : Outcome string :=
  match v with
  | AString s => Returns s
  | _ => Panics ("interface conversion: interface {} is " +:+ typeName v +:+ ", not string")
  end.

Definition registerRequest (c : Client) (deviceID : string)
    (registerInfo : entities_RegistrationInfo E) : requestBuilder :=
  newRequestBuilder
    .> Type_ postDataMessageForDeviceType
    .> Action registerActionType
    .> Header "Content-Type" "application/json"
    .> Url (Sprintf_data (serverURL c) rootUrl deviceID "out")
    .> Body_ (RegisterBody registerInfo).

(** [Register] from [c.processResponse(res)] to its end. *)
Definition registerDecode (res : http_Response) : Outcome (RegistrationResponse * error) :=
  let '(message, err) := processResponse res in
  match err with
  | Some err => Returns ({| SignedCSR := [] |}, Some err)
  | None =>
    match Content message with
    | AMap certMap =>
      match certMap !! certificateKey with
      | None => Returns ({| SignedCSR := [] |}, Some "cannot get certificate from payload")
      | Some cert =>
        match assertString cert with
        | Panics msg => Panics msg
        | Returns s => Returns ({| SignedCSR := bytes_of_string s |}, None)
        end
      end
    | _ => Returns ({| SignedCSR := [] |}, Some "payload content is not a map")
    end
  end.

Definition Register (c : Client) (cm : certificate.Manager) (deviceID : string)
    (registerInfo : entities_RegistrationInfo E) (log : Log)
  : Outcome (RegistrationResponse * error) * Client * Log :=
  match Build P (registerRequest c deviceID registerInfo) with
  | inr err =>
    (Returns ({| SignedCSR := [] |},
              Some ("cannot create registration request '" +:+ err +:+ "'")), c, log)
  | inl request =>
    match do c cm request log with
    | (inr err, c, log) =>
      (Returns ({| SignedCSR := [] |}, Some ("cannot register device '" +:+ err +:+ "'")),
       c, log)
    | (inl res, c, log) => (registerDecode res, c, log)
    end
  end.

Definition heartbeatRequest (c : Client) (deviceID : string)
    (heartbeat : entities_Heartbeat E) : requestBuilder :=
  newRequestBuilder
    .> Type_ postDataMessageForDeviceType
    .> Action heartbeatActionType
    .> Url (Sprintf_data (serverURL c) rootUrl deviceID "out")
    .> Body_ (HeartbeatBody heartbeat)
    .> Header "Content-Type" "application/json".

Definition Heartbeat (c : Client) (cm : certificate.Manager) (deviceID : string)
    (heartbeat : entities_Heartbeat E) (log : Log) : error * Client * Log :=
  match Build P (heartbeatRequest c deviceID heartbeat) with
  | inr err => (Some ("cannot create heartbeat request '" +:+ err +:+ "'"), c, log)
  | inl request =>
    match do c cm request log with
    | (inr err, c, log) => (Some ("cannot send heartbeat '" +:+ err +:+ "'"), c, log)
    | (inl resp, c, log) =>
      if (400 <=? StatusCode resp)%Z then
        (Some ("cannot send heartbeat. code: " +:+ itoa (StatusCode resp)), c, log)
      else (None, c, log)
    end
  end.

Definition configurationRequest (c : Client) (deviceID : string) : requestBuilder :=
  newRequestBuilder
    .> Type_ getDataMessageForDeviceType
    .> Action configurationActionType
    .> Header "Content-Type" "application/json"
    .> Url (Sprintf_data (serverURL c) rootUrl deviceID "in").

(** [GetConfiguration] from [c.processResponse(res)] to its end. *)
Definition configurationDecode (res : http_Response)
  : entities_DeviceConfiguration E * error :=
  let '(message, err) := processResponse res in
  match err with
  | Some err => (emptyDeviceConfiguration P, Some err)
  | None =>
    match Content message with
    | AMap data =>
      match data !! "configuration" with
      | None => (emptyDeviceConfiguration P, Some "cannot find configuration data in payload")
      | Some conf =>
        match json_Marshal P conf with
        | inr err =>
          (emptyDeviceConfiguration P, Some ("cannot read configuration: '" +:+ err +:+ "'"))
        | inl j =>
          match json_UnmarshalConfiguration P j with
          | inr err =>
            (emptyDeviceConfiguration P,
             Some ("cannot read configuration: '" +:+ err +:+ "'"))
          | inl m => (configurationModel2Entity P m, None)
          end
        end
      end
    | _ => (emptyDeviceConfiguration P, Some "payload content is not a map")
    end
  end.

Definition GetConfiguration (c : Client) (cm : certificate.Manager) (deviceID : string)
    (log : Log) : (entities_DeviceConfiguration E * error) * Client * Log :=
  match Build P (configurationRequest c deviceID) with
  | inr err =>
    ((emptyDeviceConfiguration P,
      Some ("cannot create configuration request '" +:+ err +:+ "'")), c, log)
  | inl request =>
    match do c cm request log with
    | (inr err, c, log) =>
      ((emptyDeviceConfiguration P, Some ("cannot get configuration '" +:+ err +:+ "'")),
       c, log)
    | (inl res, c, log) => (configurationDecode res, c, log)
    end
  end.

(** A run of the rotation guard: one [getClient] per operation issued, each
    with the manager's content at that time.  The log keeps one
    [recreateMsg] per rebuild. *)
Fixpoint getClients (c : Client) (cms : list certificate.Manager) (log : Log)
  : Client * Log :=
  match cms with
  | [] => (c, log)
  | cm :: cms => let '(_, c, log) := getClient c cm log in getClients c cms log
  end.

End Client.

End client.

(** ** Package [state]: the profile manager *)

Module state.

(** [entity.Option[T]]. *)
Record Option_ (T : Type) := { None_ : bool; Value : T }.
Arguments None_ {T} _.
Arguments Value {T} _.

Section Manager.

Context {metricValue DeviceProfile chan : Type}.

(** [MetricServer]: [OutputChannel] names the channel the server writes
    to, [Shutdown] leaves a stopped server and an error. *)
Class MetricServer (S : Type) := {
  OutputChannel : S -> chan;
  Shutdown : S -> S * error;
}.

(** [Evaluator].  Evaluate returns a map with profiles which changed
    state: the key is the profile name and value the new state.  A nil map
    is the empty map. *)
Class Evaluator (Ev : Type) := {
  AddValue : metricValue -> Ev -> Ev;
  Evaluate : Ev -> (gmap string string * error) * Ev;
}.

Context {S Ev : Type} `{!MetricServer S} `{!Evaluator Ev}.

(** The constructors of the two implementations, whose files are not among
    the sources. *)
Context (newProfileEvaluator : gmap string DeviceProfile -> Ev).
Context (newMetricServer : S).

(** [OutputCh] is unbuffered and has one reader: it is the list of the
    values sent on it so far, oldest first.  [recv] and the ticker are the
    events of [run]; [metricChannel] is [run]'s local variable. *)
Record Manager := {
  OutputCh : list (gmap string string);
  profileEvaluator : option Ev;
  metricServer : option S;
  metricChannel : option chan;
}.

Definition New : Manager :=
  {| OutputCh := []; profileEvaluator := None; metricServer := None;
     metricChannel := None |}.

(** The case [select] takes in one turn of the loop of [run]. *)
Inductive selected :=
  | recvOpt (opt : Option_ (gmap string DeviceProfile))
  | recvMetric (v : metricValue)
  | tick
  | ctxDone.

(** One turn of the loop: the manager afterwards, or [None] when [run]
    returns. *)
Definition turn (m : Manager) (s : selected) : option Manager :=
  match s with
  | recvOpt opt =>
    if None_ opt then
      match metricServer m with
      | Some srv =>
        Some {| OutputCh := OutputCh m; profileEvaluator := profileEvaluator m;
                metricServer := Some (fst (Shutdown srv)); metricChannel := None |}
      | None => Some m
      end
    else
      let ev := Some (newProfileEvaluator (Value opt)) in
      match metricServer m with
      | None =>
        Some {| OutputCh := OutputCh m; profileEvaluator := ev;
                metricServer := Some newMetricServer;
                metricChannel := Some (OutputChannel newMetricServer) |}
      | Some _ =>
        Some {| OutputCh := OutputCh m; profileEvaluator := ev;
                metricServer := metricServer m; metricChannel := metricChannel m |}
      end
  | recvMetric metricValue =>
    match profileEvaluator m with
    | None => Some m
    | Some ev =>
      Some {| OutputCh := OutputCh m; profileEvaluator := Some (AddValue metricValue ev);
              metricServer := metricServer m; metricChannel := metricChannel m |}
    end
  | tick =>
    match profileEvaluator m with
    | None => Some m
    | Some ev =>
      let '((results, err), ev) := Evaluate ev in
      match err with
      | Some _ =>
        Some {| OutputCh := OutputCh m ++ [results]; profileEvaluator := Some ev;
                metricServer := metricServer m; metricChannel := metricChannel m |}
      | None =>
        Some {| OutputCh := OutputCh m; profileEvaluator := Some ev;
                metricServer := metricServer m; metricChannel := metricChannel m |}
      end
    end
  | ctxDone => None
  end.

(** [run] over the cases [select] takes, in order; it stops at the first
    [ctxDone]. *)
Fixpoint run (m : Manager) (ss : list selected) : Manager :=
  match ss with
  | [] => m
  | s :: ss => match turn m s with Some m => run m ss | None => m end
  end.

End Manager.

End state.

(** ** Package [cmd]: reading the certificates at start-up *)

Module cmd.

Section Root.

(** [os.ReadFile] on the file system the process finds, and [certificate.New],
    whose file is not among the sources. *)
Context (os_ReadFile : string -> bytes + string).
Context (certificate_New : list bytes -> bytes -> bytes -> certificate.Manager + string).

Definition initCertificateManager (caroot certFile keyFile : string)
  : certificate.Manager + string :=
  (* read certificates *)
  match os_ReadFile caroot with
  | inr err => inr err
  | inl caRoot =>
    match os_ReadFile certFile with
    | inr err => inr err
    | inl cert =>
      match os_ReadFile keyFile with
      | inr err => inr err
      | inl privateKey =>
        match certificate_New [caRoot] cert privateKey with
        | inr err => inr err
        | inl certManager => inl certManager
        end
      end
    end
  end.

End Root.

End cmd.

(** ** Test doubles

    Stand-ins for the foreign packages and the backend, used to run the
    client on concrete inputs. *)

Module mock.

(** A middleware that records, under its name, the request on its way in
    and the response on its way out. *)
Definition recorder {E : Entities} (name : string) : @client.transportWrapper E :=
  fun next request log =>
    let '(r, log) := next request (log ++ [name +:+ " sees request"]) in
    (r, log ++ [name +:+ " sees response"]).

(** A transport that only notes that the request reached the wire. *)
Definition wire {E : Entities} (reply : http_Response + string) : @client.RoundTripper E :=
  fun request log => (reply, log ++ ["on the wire"]).

Definition entities : Entities :=
  {| http_Request := string;
     entities_EnrolementInfo := string;
     entities_RegistrationInfo := string;
     entities_Heartbeat := string;
     models_DeviceConfiguration := any;
     entities_DeviceConfiguration := any |}.

(** A platform whose backend answers every request with [reply], whose
    JSON decoder is [decode], and whose [tls.X509KeyPair] rejects an empty
    certificate as the real one does. *)
Definition platform (reply : http_Response + string)
    (decode : bytes -> models_MessageResponse + string) : @client.Platform entities :=
  {| client.url_Parse := fun path => inl path;
     client.pem_Encode := fun _ b => b;
     client.x509_MarshalECPrivateKey := fun k => [Byte.x01];
     client.x509_MarshalPKCS1PrivateKey := fun k => [Byte.x02];
     client.tls_X509KeyPair := fun certPEM keyPEM =>
       match certPEM with
       | [] => inr "tls: failed to find any PEM data in certificate input"
       | _ => inl {| Certificate := [certPEM]; PrivateKey := KeyOther |}
       end;
     client.http_Transport := fun _ => wire reply;
     client.http_DefaultTransport := wire (inr "remote error: tls: certificate required");
     client.json_UnmarshalMessage := decode;
     client.json_Marshal := fun _ => inl [];
     client.json_UnmarshalConfiguration :=
       fun _ => (inl ANil : models_DeviceConfiguration entities + string);
     client.emptyDeviceConfiguration := (ANil : entities_DeviceConfiguration entities);
     client.logTransportWrapper_Wrap := recorder "log";
     client.Build :=
       fun b => (inl (client.b_url b) : http_Request entities + string);
     client.configurationModel2Entity :=
       fun m : models_DeviceConfiguration entities =>
         (m : entities_DeviceConfiguration entities) |}.

Definition dq : string := String (Ascii.ascii_of_nat 34) "".

(** The body [{"content":{"certificate":<v>}}]. *)
Definition registrationBody (v : string) : bytes :=
  bytes_of_string
    ("{" +:+ dq +:+ "content" +:+ dq +:+ ":{" +:+ dq +:+ "certificate" +:+ dq +:+ ":"
     +:+ v +:+ "}}").

(** A decoder that knows the replies of the scenarios below and rejects
    everything else. *)
Definition decode (data : bytes) : models_MessageResponse + string :=
  if bytes_Equal data (registrationBody (dq +:+ "PEM" +:+ dq)) then
    inl {| Content := AMap {[ "certificate" := AString "PEM" ]} |}
  else if bytes_Equal data (registrationBody "42") then
    inl {| Content := AMap {[ "certificate" := AFloat64 0x4045000000000000 ]} |}
  else if bytes_Equal data (bytes_of_string ("{" +:+ dq +:+ "content" +:+ dq +:+ ":{}}")) then
    inl {| Content := AMap ∅ |}
  else inr "invalid character".

(** Managers with an empty, a first and a rotated fingerprint, and one
    whose certificate is unusable. *)
Definition manager (sig raw : bytes) : certificate.Manager :=
  {| certificate.signature := sig; certificate.caRoot := [];
     certificate.cert := {| Raw := raw |}; certificate.key := KeyOther |}.

Definition cm0 : certificate.Manager := manager [] [Byte.x30].
Definition cm1 : certificate.Manager := manager [Byte.x01] [Byte.x30].
Definition cm2 : certificate.Manager := manager [Byte.x02] [Byte.x30].
Definition cmBad : certificate.Manager := manager [Byte.x03] [].

Definition ok200 : http_Response := {| StatusCode := 200; Body := inl [] |}.

(** A client as [New] leaves it, for the server [https://fleet:8043]. *)
Definition fresh (P : @client.Platform entities) : @client.Client entities :=
  {| client.certificateSignature := [];
     client.serverURL := "https://fleet:8043";
     client.transportWrappers := [client.logTransportWrapper_Wrap P];
     client.transport := None |}.

(** An evaluator that plays back the results it was given, one per call of
    [Evaluate], and ignores the samples. *)
Definition scripted : Type := list (gmap string string * error).

#[export] Instance scripted_Evaluator : @state.Evaluator nat scripted :=
  {| state.AddValue := fun _ ev => ev;
     state.Evaluate := fun ev =>
       match ev with
       | [] => ((∅, None), [])
       | r :: ev => (r, ev)
       end |}.

(** A metric server that is either running or stopped and writes to
    channel 0. *)
#[export] Instance bool_MetricServer : @state.MetricServer nat bool :=
  {| state.OutputChannel := fun _ => 0%nat;
     state.Shutdown := fun _ => (false, None) |}.

(** A manager that holds the evaluator [ev] and has sent nothing yet. *)
Definition managing (ev : scripted) : @state.Manager nat bool scripted :=
  {| state.OutputCh := []; state.profileEvaluator := Some ev;
     state.metricServer := Some true; state.metricChannel := Some 0%nat |}.

(** [turn] with the two constructors filled in; the profiles are of no
    concern to the scripted evaluator. *)
Definition turn (m : @state.Manager nat bool scripted) (s : @state.selected nat unit)
  : option (@state.Manager nat bool scripted) :=
  state.turn (fun _ => []) true m s.

End mock.

(** ** More test doubles: failures *)

Module failing.

(** The platform of [mock.platform] with a request builder that rejects
    every request. *)
Definition noBuilder (reply : http_Response + string) : @client.Platform mock.entities :=
  let P := mock.platform reply mock.decode in
  {| client.url_Parse := client.url_Parse P;
     client.pem_Encode := client.pem_Encode P;
     client.x509_MarshalECPrivateKey := client.x509_MarshalECPrivateKey P;
     client.x509_MarshalPKCS1PrivateKey := client.x509_MarshalPKCS1PrivateKey P;
     client.tls_X509KeyPair := client.tls_X509KeyPair P;
     client.http_Transport := client.http_Transport P;
     client.http_DefaultTransport := client.http_DefaultTransport P;
     client.json_UnmarshalMessage := client.json_UnmarshalMessage P;
     client.json_Marshal := client.json_Marshal P;
     client.json_UnmarshalConfiguration := client.json_UnmarshalConfiguration P;
     client.emptyDeviceConfiguration := client.emptyDeviceConfiguration P;
     client.logTransportWrapper_Wrap := client.logTransportWrapper_Wrap P;
     client.Build := fun _ => (inr "unsupported payload" : http_Request mock.entities + string);
     client.configurationModel2Entity := client.configurationModel2Entity P |}.

(** The body [{"content":null}] and a decoder that knows it. *)
Definition nullBody : bytes :=
  bytes_of_string ("{" +:+ mock.dq +:+ "content" +:+ mock.dq +:+ ":null}").

Definition decodeNull (data : bytes) : models_MessageResponse + string :=
  if bytes_Equal data nullBody then inl {| Content := ANil |}
  else inr "invalid character".

(** A file system with the three certificate files of a device, and a
    certificate manager constructor that takes the bytes as they are. *)
Definition files (name : string) : bytes + string :=
  if String.eqb name "ca.pem" then inl [Byte.x01]
  else if String.eqb name "cert.pem" then inl [Byte.x02]
  else if String.eqb name "key.pem" then inl [Byte.x03]
  else inr ("open " +:+ name +:+ ": no such file or directory").

Definition newManager (caRoot : list bytes) (cert key : bytes)
  : certificate.Manager + string :=
  match cert with
  | [] => inr "cannot decode certificate"
  | _ => inl (mock.manager key cert)
  end.

(** [run] of the manager with the scripted evaluator and the two-state
    metric server. *)
Definition run (m : @state.Manager nat bool mock.scripted)
    (ss : list (@state.selected nat unit)) : @state.Manager nat bool mock.scripted :=
  @state.run nat unit nat bool mock.scripted mock.bool_MetricServer mock.scripted_Evaluator
    (fun _ => []) true m ss.

Definition clear : @state.selected nat unit :=
  state.recvOpt {| state.None_ := true; state.Value := ∅ |}.

Definition profiles : @state.selected nat unit :=
  state.recvOpt {| state.None_ := false; state.Value := {[ "p1" := tt ]} |}.

End failing.

(** ** What the specification's words say, as definitions *)

(** The number of distinct consecutive changes in a sequence of signatures
    that follows [prev]. *)
Fixpoint changes (prev : bytes) (sigs : list bytes) : nat :=
  match sigs with
  | [] => O
  | s :: sigs => ((if bytes_Equal prev s then 0 else 1) + changes s sigs)%nat
  end.

(** The number of calls that find a signature other than the one captured at
    the last successful build; a call is a signature and whether a build of
    its material succeeds. *)
Fixpoint mismatches (stored : bytes) (calls : list (bytes * bool)) : nat :=
  match calls with
  | [] => O
  | (s, builds) :: calls =>
    if bytes_Equal stored s then mismatches stored calls
    else S (mismatches (if builds then s else stored) calls)
  end.

(** Whether a build from the manager's material succeeds. *)
Definition builds {E : Entities} (P : @client.Platform E) (cm : certificate.Manager) : bool :=
  match snd (client.createTLSConfig P cm) with
  | None => true
  | Some _ => false
  end.

(** The calls a run of the guard amounts to. *)
Definition callsOf {E : Entities} (P : @client.Platform E) (cms : list certificate.Manager)
  : list (bytes * bool) :=
  map (fun cm => (certificate.Signature cm, builds P cm)) cms.

(** The number of rebuilds a log records. *)
Definition rebuilds (log : Log) : nat :=
  length (filter (fun m => m = client.recreateMsg) log).

(** The composition the specification asks of the middleware chain: the
    first decorator outermost. *)
Definition nest {E : Entities} (ws : list (@client.transportWrapper E))
    (base : @client.RoundTripper E) : @client.RoundTripper E :=
  foldr (fun w inner => w inner) base ws.



(** The ticks among the cases a run of the manager takes, and whether a case
    installs an evaluator. *)
Definition isTick {metricValue DeviceProfile : Type}
    (s : @state.selected metricValue DeviceProfile) : bool :=
  match s with
  | state.tick => true
  | _ => false
  end.

Definition setsProfiles {metricValue DeviceProfile : Type}
    (s : @state.selected metricValue DeviceProfile) : bool :=
  match s with
  | state.recvOpt opt => negb (state.None_ opt)
  | _ => false
  end.

(** Whether a case is the receipt of a metric sample. *)
Definition isMetric {metricValue DeviceProfile : Type}
    (s : @state.selected metricValue DeviceProfile) : bool :=
  match s with
  | state.recvMetric _ => true
  | _ => false
  end.

(** Whether [select] can take a case in the state [m]: a receive from the
    nil [metricChannel] blocks for ever and is never taken; the profile
    channel, the ticker and the context can always deliver. *)
Definition selectable {metricValue DeviceProfile chan S Ev : Type}
    (m : @state.Manager chan S Ev) (s : @state.selected metricValue DeviceProfile) : bool :=
  match s with
  | state.recvMetric _ =>
    match state.metricChannel m with
    | Some _ => true
    | None => false
    end
  | _ => true
  end.

(** The runs [select] can produce: every case is one it can take in the
    state reached, and no case follows the return on [ctxDone]. *)
Fixpoint admissible {metricValue DeviceProfile chan S Ev : Type}
    `{!@state.MetricServer chan S} `{!@state.Evaluator metricValue Ev}
    (newProfileEvaluator : gmap string DeviceProfile -> Ev) (newMetricServer : S)
    (m : @state.Manager chan S Ev) (ss : list (@state.selected metricValue DeviceProfile))
  : bool :=
  match ss with
  | [] => true
  | s :: ss =>
    selectable m s &&
    match state.turn newProfileEvaluator newMetricServer m s with
    | Some m' => admissible newProfileEvaluator newMetricServer m' ss
    | None => match ss with [] => true | _ => false end
    end
  end.

(** * Properties *)

Section Basics.

Lemma bytes_Equal_refl (a : bytes) : bytes_Equal a a = true.
Proof.
  induction a as [|x a IH]; simpl; [done|].
  rewrite IH, andb_true_r. by apply Byte.byte_dec_lb.
Qed.

Lemma bytes_Equal_eq (a b : bytes) : bytes_Equal a b = true <-> a = b.
Proof.
  split; [|intros ->; apply bytes_Equal_refl].
  revert b; induction a as [|x a IH]; intros [|y b]; simpl; try done.
  intros [Hx Hab]%andb_true_iff.
  apply Byte.byte_dec_bl in Hx. apply IH in Hab. by subst.
Qed.

Lemma bytes_Equal_neq (a b : bytes) : bytes_Equal a b = false <-> a <> b.
Proof.
  rewrite <- bytes_Equal_eq. destruct (bytes_Equal a b); split; congruence.
Qed.

Lemma rebuilds_app (l1 l2 : Log) : rebuilds (l1 ++ l2) = (rebuilds l1 + rebuilds l2)%nat.
Proof. unfold rebuilds. by rewrite filter_app, length_app. Qed.

Lemma rebuilds_recreateMsg : rebuilds [client.recreateMsg] = 1%nat.
Proof. reflexivity. Qed.

Lemma log_grows (log : Log) (m : string) : log ++ [m] <> log.
Proof.
  intros H. apply (f_equal length) in H. rewrite length_app in H. simpl in H. lia.
Qed.

End Basics.

Section Middleware.

Context {E : Entities}.
Implicit Types (ws : list (@client.transportWrapper E)) (base : @client.RoundTripper E).

Lemma wrapBackwards_take ws (n : nat) base :
  (n <= length ws)%nat ->
  client.wrapBackwards ws n base = nest (take n ws) base.
Proof.
  revert base. induction n as [|i IH]; intros base Hn; simpl.
  - done.
  - destruct (ws !! i) as [w|] eqn:Hw.
    + rewrite IH by lia.
      rewrite (take_S_r (A:=client.transportWrapper) ws i w Hw). unfold nest. by rewrite foldr_app.
    + apply lookup_ge_None in Hw. unfold client.transportWrapper in *. lia.
Qed.

Lemma wrapBackwards_nest ws base :
  client.wrapBackwards ws (length ws) base = nest ws base.
Proof. rewrite wrapBackwards_take by lia. by rewrite firstn_all. Qed.

(** A chain of recorders: the requests are seen in the order of the list,
    the responses in the opposite order, the base transport in between. *)
Lemma nest_recorders (names : list string) base (request : http_Request E) (log : Log) :
  nest (map mock.recorder names) base request log =
  let '(r, log') := base request (log ++ map (fun n => n +:+ " sees request") names) in
  (r, log' ++ map (fun n => n +:+ " sees response") (rev names)).
Proof.
  revert log. induction names as [|n names IH]; intros log; simpl.
  - rewrite app_nil_r. destruct (base request log). by rewrite app_nil_r.
  - unfold mock.recorder at 1. fold (nest (map mock.recorder names) base).
    rewrite IH, <- app_assoc. simpl.
    destruct (base request _) as [r log'].
    by rewrite map_app, app_assoc.
Qed.

End Middleware.

Section Composition.

Context {E : Entities} (P : @client.Platform E).

(** C2.  [createTransport] walks the wrapper list from its last index to
    its first, each time replacing the running result by the wrapper applied
    to it, so the transport it returns is the wrappers nested in list order
    around the base transport: for wrappers [A, B, C] it is
    [A (B (C base))], the first-registered wrapper outermost and the last one
    next to the base transport.  With recording wrappers, every request is
    seen by the wrappers in registration order before it reaches the base
    transport, and the response is seen in the opposite order, by the first
    wrapper last. *)
Theorem createTransport_first_wrapper_outermost :
  forall (sig : bytes) (url : string) (t : option client.RoundTripper)
         (cm : certificate.Manager),
    let client_with ws :=
      {| client.certificateSignature := sig; client.serverURL := url;
         client.transportWrappers := ws; client.transport := t |} in
    let base := client.http_Transport P (fst (client.createTLSConfig P cm)) in
    (forall ws, fst (client.createTransport P (client_with ws) cm) = nest ws base) /\
    (forall A B C,
       fst (client.createTransport P (client_with [A; B; C]) cm) = A (B (C base))) /\
    (forall (names : list string) (request : http_Request E) (log : Log),
       fst (client.createTransport P (client_with (map mock.recorder names)) cm) request log =
       let '(r, log') :=
         base request (log ++ map (fun n => n +:+ " sees request") names) in
       (r, log' ++ map (fun n => n +:+ " sees response") (rev names))).
Proof.
  intros sig url t cm client_with base.
  assert (Hnest : forall ws,
    fst (client.createTransport P (client_with ws) cm) = nest ws base).
  { intros ws. unfold client.createTransport, base.
    destruct (client.createTLSConfig P cm) as [tlsConfig err]. simpl.
    apply wrapBackwards_nest. }
  split; [exact Hnest|]. split.
  - intros A B C. by rewrite Hnest.
  - intros names request log. rewrite Hnest. apply nest_recorders.
Qed.

End Composition.

(** The middleware list [A, B, C] of the specification, run against a base
    transport that answers 200. *)
Example createTransport_ABC_trace :
  let P := mock.platform (inl mock.ok200) mock.decode in
  let c := {| client.certificateSignature := []; client.serverURL := "https://fleet:8043";
              client.transportWrappers := map mock.recorder ["A"; "B"; "C"];
              client.transport := None |} in
  fst (client.createTransport P c mock.cm1) "request" [] =
  (inl mock.ok200,
   ["A sees request"; "B sees request"; "C sees request"; "on the wire";
    "C sees response"; "B sees response"; "A sees response"]).
Proof. reflexivity. Qed.

Section RotationGuard.

Context {E : Entities} (P : @client.Platform E).
Implicit Types (c : @client.Client E) (cm : certificate.Manager) (log : Log).

Lemma createTransport_err c cm :
  snd (client.createTransport P c cm) = snd (client.createTLSConfig P cm).
Proof.
  unfold client.createTransport. by destruct (client.createTLSConfig P cm).
Qed.


Lemma getClient_same c cm log :
  client.certificateSignature c = certificate.Signature cm ->
  client.getClient P c cm log =
  (inl {| client.Transport := client.transport c;
          client.Timeout := 2 * client.time_Second |}, c, log).
Proof.
  intros Heq. unfold client.getClient.
  by rewrite (proj2 (bytes_Equal_eq _ _) Heq).
Qed.

Lemma getClient_changed c cm log :
  client.certificateSignature c <> certificate.Signature cm ->
  client.getClient P c cm log =
  match snd (client.createTransport P c cm) with
  | Some err => (inr err, c, log ++ [client.recreateMsg])
  | None =>
    let t := Some (fst (client.createTransport P c cm)) in
    (inl {| client.Transport := t; client.Timeout := 2 * client.time_Second |},
     {| client.certificateSignature := certificate.Signature cm;
        client.serverURL := client.serverURL c;
        client.transportWrappers := client.transportWrappers c;
        client.transport := t |},
     log ++ [client.recreateMsg])
  end.
Proof.
  intros Hne. unfold client.getClient.
  rewrite (proj2 (bytes_Equal_neq _ _) Hne). simpl.
  by destruct (client.createTransport P c cm) as [t [err|]].
Qed.

Lemma getClients_rebuilds (cms : list certificate.Manager) c log :
  rebuilds (snd (client.getClients P c cms log)) =
  (rebuilds log + mismatches (client.certificateSignature c) (callsOf P cms))%nat.
Proof.
  revert c log. induction cms as [|cm cms IH]; intros c log; simpl; [lia|].
  destruct (bytes_Equal (client.certificateSignature c) (certificate.Signature cm)) eqn:Hsig.
  - apply bytes_Equal_eq in Hsig. rewrite (getClient_same _ _ _ Hsig). apply IH.
  - apply bytes_Equal_neq in Hsig. rewrite (getClient_changed _ _ _ Hsig).
    unfold builds. rewrite <- (createTransport_err c cm).
    destruct (snd (client.createTransport P c cm)) as [err|]; simpl;
      rewrite IH, rebuilds_app, rebuilds_recreateMsg; simpl; lia.
Qed.

Lemma mismatches_changes (cms : list certificate.Manager) (stored : bytes) :
  Forall (fun cm => builds P cm = true) cms ->
  mismatches stored (callsOf P cms) = changes stored (map certificate.Signature cms).
Proof.
  intros Hall. revert stored.
  induction Hall as [|cm cms Hcm _ IH]; intros stored; simpl; [done|].
  rewrite Hcm. destruct (bytes_Equal stored (certificate.Signature cm)) eqn:Hsig.
  - apply bytes_Equal_eq in Hsig. subst stored. apply IH.
  - by rewrite IH.
Qed.

Lemma createTransport_nest c cm :
  fst (client.createTransport P c cm) =
  nest (client.transportWrappers c)
    (client.http_Transport P (fst (client.createTLSConfig P cm))).
Proof.
  unfold client.createTransport.
  destruct (client.createTLSConfig P cm) as [tlsConfig err]. simpl.
  apply wrapBackwards_nest.
Qed.

Lemma builds_true cm :
  builds P cm = true ->
  snd (client.createTLSConfig P cm) = None /\ fst (client.createTLSConfig P cm) <> None.
Proof.
  unfold builds, client.createTLSConfig. simpl.
  by destruct (client.tls_X509KeyPair P _ _).
Qed.

(** C1, as amended.  A call of [getClient] rebuilds the transport stack,
    which the log records, exactly when the manager's current signature
    differs from the stored one.  With equal signatures nothing is rebuilt:
    the client is left as it was and the cached transport is handed out.  With
    different signatures and a build that succeeds, the transport handed out
    and cached is the new one, the wrappers of the client nested around an
    [http.Transport] with the TLS configuration of the manager's material, and
    the manager's signature is stored; with a build that fails the error is
    returned and the client is left as it was, so the stored signature is
    always that of the last successful build.  Over any run of calls the
    number of rebuilds is the number of calls that find a signature other than
    the one of the last successful build; when every build succeeds, that is
    the number of distinct consecutive changes of the signature. *)
Theorem getClient_rebuilds_iff_signature_changed :
  forall c cm log (cms : list certificate.Manager),
    let out := client.getClient P c cm log in
    let stored := client.certificateSignature c in
    let built :=
      nest (client.transportWrappers c)
        (client.http_Transport P (fst (client.createTLSConfig P cm))) in
    (out.2 = log ++ [client.recreateMsg] <-> stored <> certificate.Signature cm) /\
    (out.2 = log <-> stored = certificate.Signature cm) /\
    (stored = certificate.Signature cm ->
     out = (inl {| client.Transport := client.transport c;
                   client.Timeout := 2 * client.time_Second |}, c, log)) /\
    (stored <> certificate.Signature cm ->
     builds P cm = true ->
     fst (client.createTLSConfig P cm) <> None /\
     out = (inl {| client.Transport := Some built;
                   client.Timeout := 2 * client.time_Second |},
            {| client.certificateSignature := certificate.Signature cm;
               client.serverURL := client.serverURL c;
               client.transportWrappers := client.transportWrappers c;
               client.transport := Some built |},
            log ++ [client.recreateMsg])) /\
    (stored <> certificate.Signature cm ->
     forall err : string,
       snd (client.createTLSConfig P cm) = Some err ->
       out = (inr err, c, log ++ [client.recreateMsg])) /\
    rebuilds (client.getClients P c cms log).2 =
      (rebuilds log + mismatches stored (callsOf P cms))%nat /\
    (Forall (fun cm => builds P cm = true) cms ->
     rebuilds (client.getClients P c cms log).2 =
       (rebuilds log + changes stored (map certificate.Signature cms))%nat).
Proof.
  intros c cm log cms out stored built. subst out stored built.
  assert (Hruns :
    rebuilds (client.getClients P c cms log).2 =
      (rebuilds log + mismatches (client.certificateSignature c) (callsOf P cms))%nat /\
    (Forall (fun cm => builds P cm = true) cms ->
     rebuilds (client.getClients P c cms log).2 =
       (rebuilds log +
        changes (client.certificateSignature c) (map certificate.Signature cms))%nat)).
  { split; [apply getClients_rebuilds|].
    intros Hall. rewrite getClients_rebuilds. by rewrite mismatches_changes. }
  destruct (bytes_Equal (client.certificateSignature c) (certificate.Signature cm)) eqn:Hsig;
    [apply bytes_Equal_eq in Hsig; rename Hsig into Heq
    |apply bytes_Equal_neq in Hsig; rename Hsig into Hne].
  - rewrite (getClient_same _ _ _ Heq). simpl.
    split; [|split; [|split; [|split; [|split]]]]; try done.
    split; [intros H; symmetry in H; by apply log_grows in H|done].
  - assert (Hok : builds P cm = true ->
              client.getClient P c cm log =
              (inl {| client.Transport :=
                        Some (nest (client.transportWrappers c)
                                (client.http_Transport P (fst (client.createTLSConfig P cm))));
                      client.Timeout := 2 * client.time_Second |},
               {| client.certificateSignature := certificate.Signature cm;
                  client.serverURL := client.serverURL c;
                  client.transportWrappers := client.transportWrappers c;
                  client.transport :=
                    Some (nest (client.transportWrappers c)
                            (client.http_Transport P (fst (client.createTLSConfig P cm)))) |},
               log ++ [client.recreateMsg])).
    { intros [Hnone _]%builds_true.
      rewrite (getClient_changed _ _ _ Hne), createTransport_err, Hnone. simpl.
      by rewrite createTransport_nest. }
    assert (Hfail : forall err : string,
              snd (client.createTLSConfig P cm) = Some err ->
              client.getClient P c cm log = (inr err, c, log ++ [client.recreateMsg])).
    { intros err Herr.
      by rewrite (getClient_changed _ _ _ Hne), createTransport_err, Herr. }
    assert (Hlog : (client.getClient P c cm log).2 = log ++ [client.recreateMsg]).
    { destruct (snd (client.createTLSConfig P cm)) as [err|] eqn:Herr.
      - by rewrite (Hfail err).
      - rewrite Hok; [done|]. unfold builds. by rewrite Herr. }
    rewrite Hlog.
    split; [|split; [|split; [|split; [|split]]]]; try done.
    + split; [intros H; by apply log_grows in H|done].
    + intros _ Hb. split; [by apply builds_true|by apply Hok].
Qed.

End RotationGuard.

(** Five operations while the fingerprint goes 01, 01, 02, 02, 01: three
    rebuilds, and the transport of the first one. *)
Lemma getClient_rebuilds_witness :
  let P := mock.platform (inl mock.ok200) mock.decode in
  let cms := [mock.cm1; mock.cm1; mock.cm2; mock.cm2; mock.cm1] in
  Forall (fun cm => builds P cm = true) cms /\
  rebuilds (client.getClients P (mock.fresh P) cms []).2 = 3%nat /\
  (exists t, client.transport (client.getClient P (mock.fresh P) mock.cm1 []).1.2 = Some t /\
             t "request" [] =
             (inl mock.ok200, ["log sees request"; "on the wire"; "log sees response"])).
Proof.
  assert (Hall : Forall (fun cm => builds (mock.platform (inl mock.ok200) mock.decode) cm = true)
                   [mock.cm1; mock.cm1; mock.cm2; mock.cm2; mock.cm1]).
  { repeat constructor. }
  split; [exact Hall|].
  pose proof (getClient_rebuilds_iff_signature_changed
                (mock.platform (inl mock.ok200) mock.decode)
                (mock.fresh (mock.platform (inl mock.ok200) mock.decode)) mock.cm1 []
                [mock.cm1; mock.cm1; mock.cm2; mock.cm2; mock.cm1]) as H.
  cbv zeta in H. destruct H as (_ & _ & _ & Hbuilt & _ & _ & H).
  split; [rewrite (H Hall); reflexivity|].
  assert (Hne : client.certificateSignature
                  (mock.fresh (mock.platform (inl mock.ok200) mock.decode))
                <> certificate.Signature mock.cm1) by (vm_compute; discriminate).
  destruct (Hbuilt Hne eq_refl) as [_ Hout]. rewrite Hout. simpl.
  eexists. split; reflexivity.
Defined.

(** C1 as it was stated fails where a build fails: a client whose cache is
    built for the fingerprint 01 meets, three times, a manager with the
    fingerprint 03 and a certificate that does not build.  The signature has
    changed once, and the transport stack is rebuilt three times. *)
Lemma getClient_rebuilds_counterexample :
  let P := mock.platform (inl mock.ok200) mock.decode in
  let c := (client.getClients P (mock.fresh P) [mock.cm1] []).1 in
  let cms := [mock.cmBad; mock.cmBad; mock.cmBad] in
  rebuilds (client.getClients P c cms []).2 = 3%nat /\
  changes (client.certificateSignature c) (map certificate.Signature cms) = 1%nat /\
  rebuilds (client.getClients P c cms []).2 <>
  changes (client.certificateSignature c) (map certificate.Signature cms).
Proof. split; [reflexivity|]. split; [reflexivity|]. vm_compute. discriminate. Qed.

Section BuildFailure.

Context {E : Entities} (P : @client.Platform E).
Implicit Types (c : @client.Client E) (cm : certificate.Manager) (log : Log).

(** C5.  When the signature has changed and [createTransport] returns an
    error, which can only be the key-pair assembly error of [createTLSConfig],
    [getClient] returns that error and leaves the client, cached transport and
    stored signature included, exactly as it was; a later call that finds the
    stored signature again is handed the cached transport. *)
Theorem getClient_failed_build_keeps_cache :
  forall c cm log (err : string),
    client.certificateSignature c <> certificate.Signature cm ->
    snd (client.createTransport P c cm) = Some err ->
    let out := client.getClient P c cm log in
    out = (inr err, c, log ++ [client.recreateMsg]) /\
    client.transport out.1.2 = client.transport c /\
    client.certificateSignature out.1.2 = client.certificateSignature c /\
    (exists e, client.tls_X509KeyPair P
                 (client.pem_Encode P "CERTIFICATE" (Raw (certificate.cert cm)))
                 match certificate.key cm with
                 | KeyECDSA t =>
                   client.pem_Encode P "EC PRIVATE KEY" (client.x509_MarshalECPrivateKey P t)
                 | KeyRSA t =>
                   client.pem_Encode P "RSA PRIVATE KEY" (client.x509_MarshalPKCS1PrivateKey P t)
                 | KeyOther => []
                 end = inr e /\
               err = "cannot create x509 key pair: " +:+ e) /\
    (forall cm' log',
       certificate.Signature cm' = client.certificateSignature c ->
       client.getClient P out.1.2 cm' log' =
       (inl {| client.Transport := client.transport c;
               client.Timeout := 2 * client.time_Second |}, c, log')).
Proof.
  intros c cm log err Hne Herr out. subst out.
  rewrite (getClient_changed _ _ _ _ Hne), Herr. simpl.
  split; [done|]. split; [done|]. split; [done|]. split.
  - rewrite createTransport_err in Herr. revert Herr.
    unfold client.createTLSConfig. simpl.
    destruct (client.tls_X509KeyPair P _ _) as [cc|e]; simpl; [done|].
    intros [= <-]. by exists e.
  - intros cm' log' Hsig. by apply getClient_same.
Qed.

(** C10.  The client [New] returns stores the empty signature and no
    transport.  Against a manager whose signature is empty as well,
    [getClient] builds nothing, however often it is called, and hands out an
    [http.Client] with a nil [Transport], so that [do] sends the request
    through [http.DefaultTransport]: the transport with the TLS configuration
    is never made. *)
Theorem getClient_empty_signature_never_builds :
  forall (path : string) (cm0 : certificate.Manager) c,
    client.New P path (Some cm0) = (Some c, None) ->
    client.certificateSignature c = [] /\
    client.transport c = None /\
    (forall cm log,
       certificate.Signature cm = [] ->
       client.getClient P c cm log =
       (inl {| client.Transport := None; client.Timeout := 2 * client.time_Second |}, c, log)) /\
    (forall (cms : list certificate.Manager) log,
       Forall (fun cm => certificate.Signature cm = []) cms ->
       client.getClients P c cms log = (c, log)) /\
    (forall cm (request : http_Request E) log,
       certificate.Signature cm = [] ->
       client.do P c cm request log =
       ((client.http_DefaultTransport P request log).1, c,
        (client.http_DefaultTransport P request log).2)).
Proof.
  intros path cm0 c HNew. unfold client.New in HNew.
  destruct (client.url_Parse P path) as [url|e]; [|done].
  injection HNew as <-. simpl.
  set (c := {| client.certificateSignature := []; client.serverURL := url;
               client.transportWrappers := _; client.transport := None |}).
  assert (Hget : forall cm log, certificate.Signature cm = [] ->
            client.getClient P c cm log =
            (inl {| client.Transport := None; client.Timeout := 2 * client.time_Second |},
             c, log)).
  { intros cm log Hsig. by rewrite getClient_same. }
  split; [done|]. split; [done|]. split; [exact Hget|]. split.
  - intros cms log Hall. revert log.
    induction Hall as [|cm cms Hcm _ IH]; intros log; simpl; [done|].
    rewrite (Hget _ _ Hcm). apply IH.
  - intros cm request log Hsig. unfold client.do. rewrite (Hget _ _ Hsig).
    unfold client.http_Client_Do. simpl.
    by destruct (client.http_DefaultTransport P request log).
Qed.

End BuildFailure.

(** A client with a working cached transport meets a manager whose
    certificate is unusable. *)
Lemma getClient_failed_build_witness :
  let P := mock.platform (inl mock.ok200) mock.decode in
  let c := (client.getClients P (mock.fresh P) [mock.cm1] []).1 in
  let err := "cannot create x509 key pair: tls: failed to find any PEM data in certificate input" in
  client.certificateSignature c <> certificate.Signature mock.cmBad /\
  snd (client.createTransport P c mock.cmBad) = Some err /\
  client.getClient P c mock.cmBad [] = (inr err, c, [client.recreateMsg]).
Proof.
  assert (Hne : client.certificateSignature
                  (client.getClients (mock.platform (inl mock.ok200) mock.decode)
                     (mock.fresh (mock.platform (inl mock.ok200) mock.decode)) [mock.cm1] []).1
                <> certificate.Signature mock.cmBad) by (vm_compute; discriminate).
  split; [exact Hne|]. split; [reflexivity|].
  exact (proj1 (getClient_failed_build_keeps_cache
                  (mock.platform (inl mock.ok200) mock.decode) _ mock.cmBad [] _
                  Hne eq_refl)).
Defined.

(** A fresh client and a manager with an empty fingerprint. *)
Lemma getClient_empty_signature_witness :
  let P := mock.platform (inl mock.ok200) mock.decode in
  client.New P "https://fleet:8043" (Some mock.cm0) = (Some (mock.fresh P), None) /\
  client.getClient P (mock.fresh P) mock.cm0 [] =
  (inl {| client.Transport := None; client.Timeout := 2 * client.time_Second |},
   mock.fresh P, []).
Proof.
  split; [reflexivity|].
  exact (proj1 (proj2 (proj2 (getClient_empty_signature_never_builds
                  (mock.platform (inl mock.ok200) mock.decode)
                  "https://fleet:8043" mock.cm0 _ eq_refl))) mock.cm0 [] eq_refl).
Defined.

(** Without a rebuild the request of the fresh client goes out on the
    default transport, past the logging wrapper and the TLS configuration. *)
Example do_empty_signature_default_transport :
  let P := mock.platform (inl mock.ok200) mock.decode in
  (client.do P (mock.fresh P) mock.cm0 "request" []).1.1 =
    inr "remote error: tls: certificate required" /\
  (client.do P (mock.fresh P) mock.cm1 "request" []).1.1 = inl mock.ok200 /\
  (client.do P (mock.fresh P) mock.cm1 "request" []).2 =
    [client.recreateMsg; "log sees request"; "on the wire"; "log sees response"].
Proof. repeat split; reflexivity. Qed.

Section Operations.

Context {E : Entities} (P : @client.Platform E).
Implicit Types (c : @client.Client E) (cm : certificate.Manager) (log : Log).
Implicit Types (deviceID : string) (request : http_Request E) (res : http_Response).

(** C6.  Once the request of [Enrol] or [Heartbeat] is built and answered,
    the operation goes by the status code alone: no error up to 399, and from
    400 on an error that names the operation and gives the code in decimal. *)
Theorem Enrol_Heartbeat_status_threshold :
  (forall c cm deviceID enrolInfo log request res c' log',
     client.Build P (client.enrolRequest c deviceID enrolInfo) = inl request ->
     client.do P c cm request log = (inl res, c', log') ->
     client.Enrol P c cm deviceID enrolInfo log =
     (if (StatusCode res <=? 399)%Z then None
      else Some ("cannot enrol device. code: " +:+ itoa (StatusCode res)), c', log')) /\
  (forall c cm deviceID heartbeat log request res c' log',
     client.Build P (client.heartbeatRequest c deviceID heartbeat) = inl request ->
     client.do P c cm request log = (inl res, c', log') ->
     client.Heartbeat P c cm deviceID heartbeat log =
     (if (StatusCode res <=? 399)%Z then None
      else Some ("cannot send heartbeat. code: " +:+ itoa (StatusCode res)), c', log')).
Proof.
  split.
  - intros c cm deviceID enrolInfo log request res c' log' Hbuild Hdo.
    unfold client.Enrol. rewrite Hbuild, Hdo.
    destruct (Z.leb_spec 400 (StatusCode res)), (Z.leb_spec (StatusCode res) 399);
      (done || lia).
  - intros c cm deviceID heartbeat log request res c' log' Hbuild Hdo.
    unfold client.Heartbeat. rewrite Hbuild, Hdo.
    destruct (Z.leb_spec 400 (StatusCode res)), (Z.leb_spec (StatusCode res) 399);
      (done || lia).
Qed.

(** C7.  The request URLs as the four operations build them, for every
    server address and device identifier: the server address, then two
    slashes (the one of the format and the one [rootUrl] starts with), the
    base path and the data path, ending in [out] for [Enrol], [Register] and
    [Heartbeat] and in [in] for [GetConfiguration]. *)
Theorem request_urls_double_slash :
  forall c deviceID enrolInfo registerInfo heartbeat,
  let out := client.serverURL c +:+ "//api/flotta-management/v1/data/" +:+ deviceID +:+ "/out" in
  client.b_url (client.enrolRequest c deviceID enrolInfo) = out /\
  client.b_url (client.registerRequest c deviceID registerInfo) = out /\
  client.b_url (client.heartbeatRequest c deviceID heartbeat) = out /\
  client.b_url (client.configurationRequest c deviceID) =
    client.serverURL c +:+ "//api/flotta-management/v1/data/" +:+ deviceID +:+ "/in".
Proof. intros. repeat split; reflexivity. Qed.

Lemma Register_decodes c cm deviceID registerInfo log request res c' log' :
  client.Build P (client.registerRequest c deviceID registerInfo) = inl request ->
  client.do P c cm request log = (inl res, c', log') ->
  client.Register P c cm deviceID registerInfo log = (client.registerDecode P res, c', log').
Proof. intros Hbuild Hdo. unfold client.Register. by rewrite Hbuild, Hdo. Qed.

Lemma GetConfiguration_decodes c cm deviceID log request res c' log' :
  client.Build P (client.configurationRequest c deviceID) = inl request ->
  client.do P c cm request log = (inl res, c', log') ->
  client.GetConfiguration P c cm deviceID log = (client.configurationDecode P res, c', log').
Proof. intros Hbuild Hdo. unfold client.GetConfiguration. by rewrite Hbuild, Hdo. Qed.

(** C3.  When the envelope of the registration reply decodes and its
    content is a mapping, [Register] goes by the [certificate] field: without
    it the call returns the empty response and the error that says so; with a
    string there it returns no error and the bytes of that string. *)
Theorem Register_certificate_narrowing :
  forall c cm deviceID registerInfo log request res c' log' message
         (certMap : gmap string any),
    client.Build P (client.registerRequest c deviceID registerInfo) = inl request ->
    client.do P c cm request log = (inl res, c', log') ->
    client.processResponse P res = (message, None) ->
    Content message = AMap certMap ->
    (certMap !! "certificate" = None ->
     client.Register P c cm deviceID registerInfo log =
     (Returns ({| SignedCSR := [] |}, Some "cannot get certificate from payload"), c', log')) /\
    (forall s : string,
       certMap !! "certificate" = Some (AString s) ->
       client.Register P c cm deviceID registerInfo log =
       (Returns ({| SignedCSR := bytes_of_string s |}, None), c', log')).
Proof.
  intros c cm deviceID registerInfo log request res c' log' message certMap
    Hbuild Hdo Hmsg Hmap.
  rewrite (Register_decodes _ _ _ _ _ _ _ _ _ Hbuild Hdo).
  unfold client.registerDecode. rewrite Hmsg, Hmap. unfold client.certificateKey.
  split; [intros ->; done|]. intros s ->. done.
Qed.

(** A [certificate] field that holds anything but a string makes the type
    assertion of [Register] panic. *)
Lemma Register_wrong_shape_panics c cm deviceID registerInfo log request res c' log'
    message (certMap : gmap string any) (cert : any) :
  client.Build P (client.registerRequest c deviceID registerInfo) = inl request ->
  client.do P c cm request log = (inl res, c', log') ->
  client.processResponse P res = (message, None) ->
  Content message = AMap certMap ->
  certMap !! "certificate" = Some cert ->
  (forall s, cert <> AString s) ->
  client.Register P c cm deviceID registerInfo log =
  (Panics ("interface conversion: interface {} is " +:+ client.typeName cert +:+ ", not string"),
   c', log').
Proof.
  intros Hbuild Hdo Hmsg Hmap Hcert Hshape.
  rewrite (Register_decodes _ _ _ _ _ _ _ _ _ Hbuild Hdo).
  unfold client.registerDecode. rewrite Hmsg, Hmap. unfold client.certificateKey.
  rewrite Hcert. destruct cert; try done. by destruct (Hshape s).
Qed.

(** C8.  [Register] and [GetConfiguration] do not look at the status code:
    what they return for an answered request is what decoding the same body
    gives under any other status code.  Under every status code a body that
    cannot be read or parsed, or whose content lacks the field, gives the
    error that says so, and a body that decodes gives the result without
    error. *)
Theorem decoding_ignores_status_code :
  (forall c cm deviceID registerInfo log request res c' log' (status : Z),
     client.Build P (client.registerRequest c deviceID registerInfo) = inl request ->
     client.do P c cm request log = (inl res, c', log') ->
     client.Register P c cm deviceID registerInfo log =
     (client.registerDecode P {| StatusCode := status; Body := Body res |}, c', log')) /\
  (forall c cm deviceID log request res c' log' (status : Z),
     client.Build P (client.configurationRequest c deviceID) = inl request ->
     client.do P c cm request log = (inl res, c', log') ->
     client.GetConfiguration P c cm deviceID log =
     (client.configurationDecode P {| StatusCode := status; Body := Body res |}, c', log')) /\
  (forall (status : Z) (err : string),
     let res := {| StatusCode := status; Body := inr err |} in
     let msg := "cannot read response body '" +:+ err +:+ "'" in
     client.registerDecode P res = Returns ({| SignedCSR := [] |}, Some msg) /\
     client.configurationDecode P res = (client.emptyDeviceConfiguration P, Some msg)) /\
  (forall (status : Z) (data : bytes) (err : string),
     client.json_UnmarshalMessage P data = inr err ->
     let res := {| StatusCode := status; Body := inl data |} in
     let msg := "cannot read marshal body into message response '" +:+ err +:+ "'" in
     client.registerDecode P res = Returns ({| SignedCSR := [] |}, Some msg) /\
     client.configurationDecode P res = (client.emptyDeviceConfiguration P, Some msg)) /\
  (forall (status : Z) (data : bytes) (m : gmap string any),
     client.json_UnmarshalMessage P data = inl {| Content := AMap m |} ->
     let res := {| StatusCode := status; Body := inl data |} in
     (m !! "certificate" = None ->
      client.registerDecode P res =
      Returns ({| SignedCSR := [] |}, Some "cannot get certificate from payload")) /\
     (forall s, m !! "certificate" = Some (AString s) ->
      client.registerDecode P res = Returns ({| SignedCSR := bytes_of_string s |}, None)) /\
     (m !! "configuration" = None ->
      client.configurationDecode P res =
      (client.emptyDeviceConfiguration P, Some "cannot find configuration data in payload")) /\
     (forall conf j model,
        m !! "configuration" = Some conf ->
        client.json_Marshal P conf = inl j ->
        client.json_UnmarshalConfiguration P j = inl model ->
        client.configurationDecode P res = (client.configurationModel2Entity P model, None))).
Proof.
  split; [|split; [|split; [|split]]].
  - intros c cm deviceID registerInfo log request res c' log' status Hbuild Hdo.
    by rewrite (Register_decodes _ _ _ _ _ _ _ _ _ Hbuild Hdo).
  - intros c cm deviceID log request res c' log' status Hbuild Hdo.
    by rewrite (GetConfiguration_decodes _ _ _ _ _ _ _ _ Hbuild Hdo).
  - intros status err res msg. split; reflexivity.
  - intros status data err Hdata res msg.
    unfold client.registerDecode, client.configurationDecode, client.processResponse.
    simpl. by rewrite Hdata.
  - intros status data m Hdata res.
    unfold client.registerDecode, client.configurationDecode, client.processResponse,
      client.certificateKey.
    simpl. rewrite Hdata. simpl.
    split; [by intros ->|]. split; [by intros s ->|]. split; [by intros ->|].
    intros conf j model -> Hj Hmodel. by rewrite Hj, Hmodel.
Qed.

End Operations.

(** [Enrol] and [Heartbeat] against a backend that answers with each of the
    status codes 200, 201, 399, 400 and 500. *)
Example Enrol_Heartbeat_tested_statuses :
  let P status := mock.platform (inl {| StatusCode := status; Body := inl [] |}) mock.decode in
  map (fun status => (client.Enrol (P status) (mock.fresh (P status)) mock.cm1 "d1" "info" []).1.1)
      [200; 201; 399; 400; 500] =
    [None; None; None; Some "cannot enrol device. code: 400";
     Some "cannot enrol device. code: 500"] /\
  map (fun status =>
         (client.Heartbeat (P status) (mock.fresh (P status)) mock.cm1 "d1" "beat" []).1.1)
      [200; 201; 399; 400; 500] =
    [None; None; None; Some "cannot send heartbeat. code: 400";
     Some "cannot send heartbeat. code: 500"].
Proof. split; reflexivity. Qed.

(** [Heartbeat] against a backend that answers 503. *)
Lemma Enrol_Heartbeat_status_witness :
  let res := {| StatusCode := 503; Body := inl [] |} in
  let P := mock.platform (inl res) mock.decode in
  let url := "https://fleet:8043//api/flotta-management/v1/data/d1/out" in
  client.Build P (client.heartbeatRequest (mock.fresh P) "d1" "beat") = inl url /\
  (client.do P (mock.fresh P) mock.cm1 url []).1.1 = inl res /\
  (client.Heartbeat P (mock.fresh P) mock.cm1 "d1" "beat" []).1.1 =
  Some "cannot send heartbeat. code: 503".
Proof.
  split; [reflexivity|]. split; [reflexivity|].
  set (P := mock.platform (inl {| StatusCode := 503; Body := inl [] |}) mock.decode).
  assert (Hdo : exists c' log',
            client.do P (mock.fresh P) mock.cm1
              "https://fleet:8043//api/flotta-management/v1/data/d1/out" [] =
            (inl {| StatusCode := 503; Body := inl [] |}, c', log')).
  { eexists. eexists. lazy. reflexivity. }
  destruct Hdo as (c' & log' & Hdo).
  exact (f_equal (fun out => out.1.1)
           (proj2 (Enrol_Heartbeat_status_threshold P)
              (mock.fresh P) mock.cm1 "d1" "beat" [] _ _ c' log' eq_refl Hdo)).
Defined.

(** C7 at the server [https://fleet:8043] and the device [d1]: the URL has
    two slashes after the server address and is not the one of the wire
    protocol. *)
Example request_url_of_d1 :
  let P := mock.platform (inl mock.ok200) mock.decode in
  let url := client.b_url (client.enrolRequest (mock.fresh P) "d1" "info") in
  url = "https://fleet:8043//api/flotta-management/v1/data/d1/out" /\
  url <> "https://fleet:8043/api/flotta-management/v1/data/d1/out".
Proof. split; [reflexivity|discriminate]. Qed.

(** The registration scenario of the specification: the backend answers 200
    with a certificate, and [Register] returns its bytes. *)
Lemma Register_certificate_witness :
  let res := {| StatusCode := 200;
                Body := inl (mock.registrationBody (mock.dq +:+ "PEM" +:+ mock.dq)) |} in
  let P := mock.platform (inl res) mock.decode in
  client.processResponse P res =
    ({| Content := AMap {[ "certificate" := AString "PEM" ]} |}, None) /\
  (client.Register P (mock.fresh P) mock.cm1 "d1" "info" []).1.1 =
  Returns ({| SignedCSR := [Byte.x50; Byte.x45; Byte.x4d] |}, None).
Proof.
  split; [reflexivity|].
  set (res := {| StatusCode := 200;
                 Body := inl (mock.registrationBody (mock.dq +:+ "PEM" +:+ mock.dq)) |}).
  set (P := mock.platform (inl res) mock.decode).
  assert (Hdo : exists c' log',
            client.do P (mock.fresh P) mock.cm1
              "https://fleet:8043//api/flotta-management/v1/data/d1/out" [] =
            (inl res, c', log')).
  { eexists. eexists. lazy. reflexivity. }
  destruct Hdo as (c' & log' & Hdo).
  exact (f_equal (fun out => out.1.1)
           (proj2 (Register_certificate_narrowing P
                     (mock.fresh P) mock.cm1 "d1" "info" [] _ res c' log'
                     {| Content := AMap {[ "certificate" := AString "PEM" ]} |}
                     {[ "certificate" := AString "PEM" ]}
                     eq_refl Hdo eq_refl eq_refl) "PEM" eq_refl)).
Defined.

(** A reply whose content has no [certificate] field. *)
Example Register_missing_certificate :
  let res := {| StatusCode := 200;
                Body := inl (bytes_of_string
                               ("{" +:+ mock.dq +:+ "content" +:+ mock.dq +:+ ":{}}")) |} in
  let P := mock.platform (inl res) mock.decode in
  (client.Register P (mock.fresh P) mock.cm1 "d1" "info" []).1.1 =
  Returns ({| SignedCSR := [] |}, Some "cannot get certificate from payload").
Proof. reflexivity. Qed.

(** C4 at the reply [{"content":{"certificate":42}}]: the certificate is a
    number, and [Register] does not return an error, it panics on its type
    assertion. *)
Theorem Register_panics_on_numeric_certificate :
  let res := {| StatusCode := 200; Body := inl (mock.registrationBody "42") |} in
  let P := mock.platform (inl res) mock.decode in
  client.processResponse P res =
    ({| Content := AMap {[ "certificate" := AFloat64 0x4045000000000000 ]} |}, None) /\
  (client.Register P (mock.fresh P) mock.cm1 "d1" "info" []).1.1 =
  Panics "interface conversion: interface {} is float64, not string".
Proof. split; reflexivity. Qed.

(** A well-formed registration reply under status 500. *)
Lemma decoding_ignores_status_witness :
  let res := {| StatusCode := 500;
                Body := inl (mock.registrationBody (mock.dq +:+ "PEM" +:+ mock.dq)) |} in
  let P := mock.platform (inl res) mock.decode in
  let url := "https://fleet:8043//api/flotta-management/v1/data/d1/out" in
  client.Build P (client.registerRequest (mock.fresh P) "d1" "info") = inl url /\
  (client.do P (mock.fresh P) mock.cm1 url []).1.1 = inl res /\
  (client.Register P (mock.fresh P) mock.cm1 "d1" "info" []).1.1 =
  client.registerDecode P {| StatusCode := 200; Body := Body res |} /\
  client.registerDecode P {| StatusCode := 200; Body := Body res |} =
  Returns ({| SignedCSR := bytes_of_string "PEM" |}, None).
Proof.
  split; [reflexivity|]. split; [reflexivity|]. split; [|reflexivity].
  set (res := {| StatusCode := 500;
                 Body := inl (mock.registrationBody (mock.dq +:+ "PEM" +:+ mock.dq)) |}).
  set (P := mock.platform (inl res) mock.decode).
  assert (Hdo : exists c' log',
            client.do P (mock.fresh P) mock.cm1
              "https://fleet:8043//api/flotta-management/v1/data/d1/out" [] =
            (inl res, c', log')).
  { eexists. eexists. lazy. reflexivity. }
  destruct Hdo as (c' & log' & Hdo).
  exact (f_equal (fun out => out.1.1)
           (proj1 (decoding_ignores_status_code P)
              (mock.fresh P) mock.cm1 "d1" "info" [] _ res c' log' 200 eq_refl Hdo)).
Defined.

Section ProfileManager.

Context {metricValue DeviceProfile chan S Ev : Type}.
Context `{!@state.MetricServer chan S} `{!@state.Evaluator metricValue Ev}.
Context (newProfileEvaluator : gmap string DeviceProfile -> Ev) (newMetricServer : S).

(** What a tick does with an installed evaluator: the result of [Evaluate]
    goes out on [OutputCh] when the error is not nil, and nowhere when it is. *)
Lemma turn_tick (m : @state.Manager chan S Ev) (ev ev' : Ev)
    (results : gmap string string) (err : error) :
  state.profileEvaluator m = Some ev ->
  state.Evaluate ev = ((results, err), ev') ->
  state.OutputCh <$> state.turn newProfileEvaluator newMetricServer m state.tick =
  Some (match err with
        | Some _ => state.OutputCh m ++ [results]
        | None => state.OutputCh m
        end).
Proof.
  intros Hev Heval. unfold state.turn. rewrite Hev, Heval. by destruct err.
Qed.

(** Without an evaluator a tick changes nothing. *)
Lemma turn_tick_no_evaluator (m : @state.Manager chan S Ev) :
  state.profileEvaluator m = None ->
  state.turn newProfileEvaluator newMetricServer m state.tick = Some m.
Proof. intros Hev. unfold state.turn. by rewrite Hev. Qed.

End ProfileManager.

(** C9 at an evaluator that succeeds and reports profile [p1] as [active],
    and at one that fails: after the tick the output channel has carried
    nothing in the first case, and the result mapping of the failed evaluation
    in the second. *)
Theorem Manager_tick_sends_on_error_only :
  let transition : gmap string string := {[ "p1" := "active" ]} in
  state.OutputCh <$> mock.turn (mock.managing [(transition, None)]) state.tick = Some [] /\
  state.OutputCh <$> mock.turn (mock.managing [(∅, Some "evaluation failed")]) state.tick
  = Some [∅].
Proof. split; reflexivity. Qed.

(** * Further properties of the client *)

Section GuardInvariant.

Context {E : Entities} (P : @client.Platform E).
Implicit Types (c : @client.Client E) (cm : certificate.Manager) (log : Log).






(** X2.  A call of [getClient] that succeeds hands out the transport it
    leaves in the cache, with the timeout of two seconds, and leaves the
    manager's signature stored; the same call made again, against the same
    manager, rebuilds nothing and hands out the same client. *)
Theorem getClient_twice_same_client :
  forall c cm log (cl : client.http_Client) c1 log1 log2,
    client.getClient P c cm log = (inl cl, c1, log1) ->
    client.Transport cl = client.transport c1 /\
    client.Timeout cl = 2 * client.time_Second /\
    client.certificateSignature c1 = certificate.Signature cm /\
    client.getClient P c1 cm log2 = (inl cl, c1, log2).
Proof.
  intros c cm log cl c1 log1 log2 Hget.
  assert (Hfacts : client.Transport cl = client.transport c1 /\
                   client.Timeout cl = 2 * client.time_Second /\
                   client.certificateSignature c1 = certificate.Signature cm).
  { destruct (bytes_Equal (client.certificateSignature c) (certificate.Signature cm)) eqn:Hsig.
    - apply bytes_Equal_eq in Hsig. rewrite (getClient_same P _ _ _ Hsig) in Hget.
      by injection Hget as <- <- <-.
    - apply bytes_Equal_neq in Hsig. rewrite (getClient_changed P _ _ _ Hsig) in Hget.
      destruct (snd (client.createTransport P c cm)); [done|].
      by injection Hget as <- <- <-. }
  destruct Hfacts as (Ht & Hto & Hsig). split; [done|]. split; [done|]. split; [done|].
  rewrite (getClient_same P _ _ _ Hsig). destruct cl as [t to]. simpl in *. by subst.
Qed.


End GuardInvariant.

Section OperationOutcomes.

Context {E : Entities} (P : @client.Platform E).
Implicit Types (c : @client.Client E) (cm : certificate.Manager) (log : Log).
Implicit Types (deviceID : string) (request : http_Request E) (res : http_Response).



(** X5.  When the request cannot be built, an operation returns the build
    error under its own heading without consulting the certificate manager:
    the client and the log are as before, whatever the manager's signature,
    and the decoding operations return their zero value. *)
Theorem operations_build_error_untouched :
  forall c cm deviceID log (err : string),
    (forall enrolInfo,
       client.Build P (client.enrolRequest c deviceID enrolInfo) = inr err ->
       client.Enrol P c cm deviceID enrolInfo log =
       (Some ("cannot create enrollment request '" +:+ err +:+ "'"), c, log)) /\
    (forall registerInfo,
       client.Build P (client.registerRequest c deviceID registerInfo) = inr err ->
       client.Register P c cm deviceID registerInfo log =
       (Returns ({| SignedCSR := [] |},
                 Some ("cannot create registration request '" +:+ err +:+ "'")), c, log)) /\
    (forall heartbeat,
       client.Build P (client.heartbeatRequest c deviceID heartbeat) = inr err ->
       client.Heartbeat P c cm deviceID heartbeat log =
       (Some ("cannot create heartbeat request '" +:+ err +:+ "'"), c, log)) /\
    (client.Build P (client.configurationRequest c deviceID) = inr err ->
     client.GetConfiguration P c cm deviceID log =
     ((client.emptyDeviceConfiguration P,
       Some ("cannot create configuration request '" +:+ err +:+ "'")), c, log)).
Proof.
  intros c cm deviceID log err. split; [|split; [|split]].
  - intros enrolInfo H. unfold client.Enrol. by rewrite H.
  - intros registerInfo H. unfold client.Register. by rewrite H.
  - intros heartbeat H. unfold client.Heartbeat. by rewrite H.
  - intros H. unfold client.GetConfiguration. by rewrite H.
Qed.

Lemma do_build_failure c cm request log (err : string) :
  client.certificateSignature c <> certificate.Signature cm ->
  snd (client.createTLSConfig P cm) = Some err ->
  client.do P c cm request log = (inr err, c, log ++ [client.recreateMsg]).
Proof.
  intros Hne Herr. unfold client.do.
  rewrite (getClient_changed P _ _ _ Hne), createTransport_err, Herr. done.
Qed.

(** X6.  When the signature has changed and the TLS configuration cannot
    be built, every operation whose request builds fails with the key-pair
    error under its own heading; the request reaches no transport (the log
    gains the rebuild notice and nothing else), the client is as before, and
    the decoding operations return their zero value. *)
Theorem operations_fail_on_tls_error :
  forall c cm deviceID log (err : string),
    client.certificateSignature c <> certificate.Signature cm ->
    snd (client.createTLSConfig P cm) = Some err ->
    let log' := log ++ [client.recreateMsg] in
    (forall enrolInfo request,
       client.Build P (client.enrolRequest c deviceID enrolInfo) = inl request ->
       client.Enrol P c cm deviceID enrolInfo log =
       (Some ("cannot enrol device '" +:+ err +:+ "'"), c, log')) /\
    (forall registerInfo request,
       client.Build P (client.registerRequest c deviceID registerInfo) = inl request ->
       client.Register P c cm deviceID registerInfo log =
       (Returns ({| SignedCSR := [] |}, Some ("cannot register device '" +:+ err +:+ "'")),
        c, log')) /\
    (forall heartbeat request,
       client.Build P (client.heartbeatRequest c deviceID heartbeat) = inl request ->
       client.Heartbeat P c cm deviceID heartbeat log =
       (Some ("cannot send heartbeat '" +:+ err +:+ "'"), c, log')) /\
    (forall request,
       client.Build P (client.configurationRequest c deviceID) = inl request ->
       client.GetConfiguration P c cm deviceID log =
       ((client.emptyDeviceConfiguration P,
         Some ("cannot get configuration '" +:+ err +:+ "'")), c, log')).
Proof.
  intros c cm deviceID log err Hne Herr log'. split; [|split; [|split]].
  - intros enrolInfo request H. unfold client.Enrol.
    by rewrite H, (do_build_failure _ _ _ _ _ Hne Herr).
  - intros registerInfo request H. unfold client.Register.
    by rewrite H, (do_build_failure _ _ _ _ _ Hne Herr).
  - intros heartbeat request H. unfold client.Heartbeat.
    by rewrite H, (do_build_failure _ _ _ _ _ Hne Herr).
  - intros request H. unfold client.GetConfiguration.
    by rewrite H, (do_build_failure _ _ _ _ _ Hne Herr).
Qed.

(** X7.  [Enrol] and [Heartbeat] return no error exactly when the request
    was built and answered with a status code below 400. *)
Theorem Enrol_Heartbeat_succeed_iff :
  forall c cm deviceID log,
    (forall enrolInfo,
       (client.Enrol P c cm deviceID enrolInfo log).1.1 = None <->
       exists request res,
         client.Build P (client.enrolRequest c deviceID enrolInfo) = inl request /\
         (client.do P c cm request log).1.1 = inl res /\
         (StatusCode res < 400)%Z) /\
    (forall heartbeat,
       (client.Heartbeat P c cm deviceID heartbeat log).1.1 = None <->
       exists request res,
         client.Build P (client.heartbeatRequest c deviceID heartbeat) = inl request /\
         (client.do P c cm request log).1.1 = inl res /\
         (StatusCode res < 400)%Z).
Proof.
  intros c cm deviceID log. split.
  - intros enrolInfo. unfold client.Enrol.
    destruct (client.Build P _) as [request|e]; simpl.
    + destruct (client.do P c cm request log) as [[[res|err] c1] l1] eqn:Hdo; simpl.
      * destruct (Z.leb_spec 400 (StatusCode res)); simpl; split.
        -- done.
        -- intros (request' & res' & [= <-] & Hres & Hlt).
           rewrite Hdo in Hres. injection Hres as <-. lia.
        -- intros _. exists request, res. by rewrite Hdo.
        -- done.
      * split; [done|]. intros (request' & res' & [= <-] & Hres & _).
        by rewrite Hdo in Hres.
    + split; [done|]. by intros (request' & res' & Hb & _).
  - intros heartbeat. unfold client.Heartbeat.
    destruct (client.Build P _) as [request|e]; simpl.
    + destruct (client.do P c cm request log) as [[[res|err] c1] l1] eqn:Hdo; simpl.
      * destruct (Z.leb_spec 400 (StatusCode res)); simpl; split.
        -- done.
        -- intros (request' & res' & [= <-] & Hres & Hlt).
           rewrite Hdo in Hres. injection Hres as <-. lia.
        -- intros _. exists request, res. by rewrite Hdo.
        -- done.
      * split; [done|]. intros (request' & res' & [= <-] & Hres & _).
        by rewrite Hdo in Hres.
    + split; [done|]. by intros (request' & res' & Hb & _).
Qed.

End OperationOutcomes.

Section Decoding.

Context {E : Entities} (P : @client.Platform E).
Implicit Types (c : @client.Client E) (cm : certificate.Manager) (log : Log).
Implicit Types (deviceID : string) (request : http_Request E) (res : http_Response).

Lemma Register_outcome c cm deviceID registerInfo log :
  (client.Register P c cm deviceID registerInfo log).1.1 =
  match client.Build P (client.registerRequest c deviceID registerInfo) with
  | inr err =>
    Returns ({| SignedCSR := [] |}, Some ("cannot create registration request '" +:+ err +:+ "'"))
  | inl request =>
    match (client.do P c cm request log).1.1 with
    | inr err =>
      Returns ({| SignedCSR := [] |}, Some ("cannot register device '" +:+ err +:+ "'"))
    | inl res => client.registerDecode P res
    end
  end.
Proof.
  unfold client.Register. destruct (client.Build P _) as [request|e]; [|done].
  by destruct (client.do P c cm request log) as [[[res|err] c1] l1].
Qed.

Lemma GetConfiguration_outcome c cm deviceID log :
  (client.GetConfiguration P c cm deviceID log).1.1 =
  match client.Build P (client.configurationRequest c deviceID) with
  | inr err =>
    (client.emptyDeviceConfiguration P,
     Some ("cannot create configuration request '" +:+ err +:+ "'"))
  | inl request =>
    match (client.do P c cm request log).1.1 with
    | inr err =>
      (client.emptyDeviceConfiguration P, Some ("cannot get configuration '" +:+ err +:+ "'"))
    | inl res => client.configurationDecode P res
    end
  end.
Proof.
  unfold client.GetConfiguration. destruct (client.Build P _) as [request|e]; [|done].
  by destruct (client.do P c cm request log) as [[[res|err] c1] l1].
Qed.

Lemma processResponse_ok res message :
  client.processResponse P res = (message, None) <->
  exists data, Body res = inl data /\ client.json_UnmarshalMessage P data = inl message.
Proof.
  unfold client.processResponse. destruct (Body res) as [data|e].
  - destruct (client.json_UnmarshalMessage P data) as [m|e] eqn:Hm.
    + split; [intros [= <-]; eauto|]. intros (data' & [= <-] & Hd). congruence.
    + split; [done|]. intros (data' & [= <-] & Hd). congruence.
  - split; [done|]. by intros (data' & Hd & _).
Qed.

Lemma processResponse_err res message (err : string) :
  client.processResponse P res = (message, Some err) -> message = {| Content := ANil |}.
Proof.
  unfold client.processResponse. destruct (Body res) as [data|e]; [|by intros [= <- _]].
  destruct (client.json_UnmarshalMessage P data); [done|by intros [= <- _]].
Qed.

Lemma registerDecode_ok res (r : RegistrationResponse) :
  client.registerDecode P res = Returns (r, None) <->
  exists message m s,
    client.processResponse P res = (message, None) /\
    Content message = AMap m /\
    m !! "certificate" = Some (AString s) /\
    r = {| SignedCSR := bytes_of_string s |}.
Proof.
  unfold client.registerDecode, client.certificateKey.
  destruct (client.processResponse P res) as [message [err|]].
  { split; [done|]. by intros (? & ? & ? & ? & _). }
  destruct (Content message) as [| | | |l|m] eqn:Hcontent;
    try (split; [done|]; intros (? & ? & ? & [= <-] & ? & _); congruence).
  destruct (m !! "certificate") as [cert|] eqn:Hcert.
  - destruct cert as [| | |s| |]; simpl;
      try (split; [done|]; intros (? & m' & ? & [= <-] & Hm & Hc & _); congruence).
    split.
    + intros [= <-]. by exists message, m, s.
    + intros (? & m' & s' & [= <-] & Hm & Hc & ->). congruence.
  - split; [done|]. intros (? & m' & ? & [= <-] & Hm & Hc & _). congruence.
Qed.

(** X8.  [Register] returns a response without error exactly when the
    request was built and answered, the body was read and parsed, its content
    is a mapping, and the mapping holds a string under [certificate]; the
    response is then the bytes of that string. *)
Theorem Register_succeeds_iff :
  forall c cm deviceID registerInfo log (r : RegistrationResponse),
    (client.Register P c cm deviceID registerInfo log).1.1 = Returns (r, None) <->
    exists request res data message m s,
      client.Build P (client.registerRequest c deviceID registerInfo) = inl request /\
      (client.do P c cm request log).1.1 = inl res /\
      Body res = inl data /\
      client.json_UnmarshalMessage P data = inl message /\
      Content message = AMap m /\
      m !! "certificate" = Some (AString s) /\
      r = {| SignedCSR := bytes_of_string s |}.
Proof.
  intros c cm deviceID registerInfo log r. rewrite Register_outcome.
  destruct (client.Build P _) as [request|e].
  - destruct ((client.do P c cm request log).1.1) as [res|err] eqn:Hdo.
    + rewrite registerDecode_ok. split.
      * intros (message & m & s & (data & Hb & Hd)%processResponse_ok & Hm & Hc & ->).
        by exists request, res, data, message, m, s.
      * intros (request' & res' & data & message & m & s & [= <-] & Hres & Hb & Hd & Hm & Hc & ->).
        rewrite Hdo in Hres. injection Hres as <-.
        exists message, m, s. rewrite processResponse_ok. eauto 10.
    + split; [done|].
      intros (request' & res' & ? & ? & ? & ? & [= <-] & Hres & _).
      by rewrite Hdo in Hres.
  - split; [done|]. by intros (request' & ? & ? & ? & ? & ? & Hb & _).
Qed.

End Decoding.

Section DecodingFailures.

Context {E : Entities} (P : @client.Platform E).
Implicit Types (c : @client.Client E) (cm : certificate.Manager) (log : Log).
Implicit Types (deviceID : string) (request : http_Request E) (res : http_Response).

Lemma registerDecode_panics res (msg : string) :
  client.registerDecode P res = Panics msg <->
  exists message m cert,
    client.processResponse P res = (message, None) /\
    Content message = AMap m /\
    m !! "certificate" = Some cert /\
    (forall s, cert <> AString s) /\
    msg = "interface conversion: interface {} is " +:+ client.typeName cert +:+ ", not string".
Proof.
  unfold client.registerDecode, client.certificateKey.
  destruct (client.processResponse P res) as [message [err|]].
  { split; [done|]. by intros (? & ? & ? & ? & _). }
  destruct (Content message) as [| | | |l|m] eqn:Hcontent;
    try (split; [done|]; intros (? & ? & ? & [= <-] & ? & _); congruence).
  destruct (m !! "certificate") as [cert|] eqn:Hcert.
  - destruct cert as [| | |s| |]; simpl;
      try (split;
           [intros [= <-]; eexists message, m, _; repeat split; eauto; done
           |intros (? & m' & cert' & [= <-] & Hm & Hc & _ & ->);
            rewrite Hcontent in Hm; injection Hm as <-; rewrite Hcert in Hc;
            by injection Hc as <-]).
    split; [done|].
    intros (? & m' & cert' & [= <-] & Hm & Hc & Hshape & _).
    rewrite Hcontent in Hm. injection Hm as <-. rewrite Hcert in Hc. injection Hc as <-.
    by destruct (Hshape s).
  - split; [done|]. intros (? & m' & ? & [= <-] & Hm & Hc & _). congruence.
Qed.

(** X9.  [Register] panics exactly when the request was built and answered,
    the body was read and parsed, its content is a mapping, and the mapping
    holds under [certificate] a value that is not a string; the panic is the
    failed type assertion on that value.  No other reply and no other failure
    makes it panic. *)
Theorem Register_panics_iff :
  forall c cm deviceID registerInfo log (msg : string),
    (client.Register P c cm deviceID registerInfo log).1.1 = Panics msg <->
    exists request res data message m cert,
      client.Build P (client.registerRequest c deviceID registerInfo) = inl request /\
      (client.do P c cm request log).1.1 = inl res /\
      Body res = inl data /\
      client.json_UnmarshalMessage P data = inl message /\
      Content message = AMap m /\
      m !! "certificate" = Some cert /\
      (forall s, cert <> AString s) /\
      msg = "interface conversion: interface {} is " +:+ client.typeName cert +:+ ", not string".
Proof.
  intros c cm deviceID registerInfo log msg. rewrite Register_outcome.
  destruct (client.Build P _) as [request|e].
  - destruct ((client.do P c cm request log).1.1) as [res|err] eqn:Hdo.
    + rewrite registerDecode_panics. split.
      * intros (message & m & cert & (data & Hb & Hd)%processResponse_ok & Hm & Hc & Hs & ->).
        by exists request, res, data, message, m, cert.
      * intros (request' & res' & data & message & m & cert
                & [= <-] & Hres & Hb & Hd & Hm & Hc & Hs & ->).
        rewrite Hdo in Hres. injection Hres as <-.
        exists message, m, cert. rewrite processResponse_ok. eauto 10.
    + split; [done|].
      intros (request' & res' & ? & ? & ? & ? & [= <-] & Hres & _).
      by rewrite Hdo in Hres.
  - split; [done|]. by intros (request' & ? & ? & ? & ? & ? & Hb & _).
Qed.

Lemma registerDecode_err res (r : RegistrationResponse) (err : string) :
  client.registerDecode P res = Returns (r, Some err) -> r = {| SignedCSR := [] |}.
Proof.
  unfold client.registerDecode.
  destruct (client.processResponse P res) as [message [e|]]; [by intros [= <- _]|].
  destruct (Content message) as [| | | |l|m]; try by intros [= <- _].
  destruct (m !! client.certificateKey) as [cert|]; [|by intros [= <- _]].
  by destruct (client.assertString cert).
Qed.

Lemma configurationDecode_err res (conf : entities_DeviceConfiguration E) (err : string) :
  client.configurationDecode P res = (conf, Some err) ->
  conf = client.emptyDeviceConfiguration P.
Proof.
  unfold client.configurationDecode.
  destruct (client.processResponse P res) as [message [e|]]; [by intros [= <- _]|].
  destruct (Content message) as [| | | |l|m]; try by intros [= <- _].
  destruct (m !! "configuration") as [v|]; [|by intros [= <- _]].
  destruct (client.json_Marshal P v) as [j|e]; [|by intros [= <- _]].
  by destruct (client.json_UnmarshalConfiguration P j); [|intros [= <- _]].
Qed.

(** X10.  A decoding operation never returns a result together with an
    error: whenever [Register] returns an error its response holds no bytes,
    and whenever [GetConfiguration] returns an error its configuration is the
    zero value, whichever step failed. *)
Theorem decoding_error_gives_zero_value :
  forall c cm deviceID log (err : string),
    (forall registerInfo (r : RegistrationResponse),
       (client.Register P c cm deviceID registerInfo log).1.1 = Returns (r, Some err) ->
       r = {| SignedCSR := [] |}) /\
    (forall conf : entities_DeviceConfiguration E,
       (client.GetConfiguration P c cm deviceID log).1.1 = (conf, Some err) ->
       conf = client.emptyDeviceConfiguration P).
Proof.
  intros c cm deviceID log err. split.
  - intros registerInfo r. rewrite Register_outcome.
    destruct (client.Build P _) as [request|e]; [|by intros [= <- _]].
    destruct ((client.do P c cm request log).1.1) as [res|e]; [|by intros [= <- _]].
    apply registerDecode_err.
  - intros conf. rewrite GetConfiguration_outcome.
    destruct (client.Build P _) as [request|e]; [|by intros [= <- _]].
    destruct ((client.do P c cm request log).1.1) as [res|e]; [|by intros [= <- _]].
    apply configurationDecode_err.
Qed.

(** X11.  A reply that parses but whose content is not a mapping (null, a
    boolean, a number, a string or a list) makes both decoding operations
    return the error [payload content is not a map] and their zero value;
    neither panics on it. *)
Theorem decoding_rejects_content_that_is_no_map :
  forall c cm deviceID log res c' log' data message,
    Body res = inl data ->
    client.json_UnmarshalMessage P data = inl message ->
    (forall m, Content message <> AMap m) ->
    (forall registerInfo request,
       client.Build P (client.registerRequest c deviceID registerInfo) = inl request ->
       client.do P c cm request log = (inl res, c', log') ->
       client.Register P c cm deviceID registerInfo log =
       (Returns ({| SignedCSR := [] |}, Some "payload content is not a map"), c', log')) /\
    (forall request,
       client.Build P (client.configurationRequest c deviceID) = inl request ->
       client.do P c cm request log = (inl res, c', log') ->
       client.GetConfiguration P c cm deviceID log =
       ((client.emptyDeviceConfiguration P, Some "payload content is not a map"), c', log')).
Proof.
  intros c cm deviceID log res c' log' data message Hb Hd Hshape.
  assert (Hmsg : client.processResponse P res = (message, None)).
  { apply processResponse_ok. eauto. }
  split.
  - intros registerInfo request Hbuild Hdo.
    rewrite (Register_decodes P _ _ _ _ _ _ _ _ _ Hbuild Hdo).
    unfold client.registerDecode. rewrite Hmsg.
    destruct (Content message) as [| | | |l|m]; try done. by destruct (Hshape m).
  - intros request Hbuild Hdo.
    rewrite (GetConfiguration_decodes P _ _ _ _ _ _ _ _ Hbuild Hdo).
    unfold client.configurationDecode. rewrite Hmsg.
    destruct (Content message) as [| | | |l|m]; try done. by destruct (Hshape m).
Qed.

Lemma configurationDecode_ok res (conf : entities_DeviceConfiguration E) :
  client.configurationDecode P res = (conf, None) <->
  exists message m v j model,
    client.processResponse P res = (message, None) /\
    Content message = AMap m /\
    m !! "configuration" = Some v /\
    client.json_Marshal P v = inl j /\
    client.json_UnmarshalConfiguration P j = inl model /\
    conf = client.configurationModel2Entity P model.
Proof.
  unfold client.configurationDecode.
  destruct (client.processResponse P res) as [message [err|]].
  { split; [done|]. by intros (? & ? & ? & ? & ? & ? & _). }
  destruct (Content message) as [| | | |l|m] eqn:Hcontent;
    try (split; [done|]; intros (? & ? & ? & ? & ? & [= <-] & ? & _); congruence).
  destruct (m !! "configuration") as [v|] eqn:Hv.
  2: { split; [done|]. intros (? & ? & ? & ? & ? & [= <-] & ? & ? & _). congruence. }
  destruct (client.json_Marshal P v) as [j|e] eqn:Hj.
  2: { split; [done|]. intros (? & ? & ? & ? & ? & [= <-] & ? & ? & ? & _). congruence. }
  destruct (client.json_UnmarshalConfiguration P j) as [model|e] eqn:Hmodel.
  2: { split; [done|]. intros (? & ? & ? & ? & ? & [= <-] & ? & ? & ? & ? & _). congruence. }
  split.
  - intros [= <-]. exists message, m, v, j, model. eauto 10.
  - intros (? & ? & ? & ? & ? & [= <-] & ? & ? & ? & ? & ->). congruence.
Qed.

(** X12.  [GetConfiguration] returns a configuration without error exactly
    when the request was built and answered, the body was read and parsed, its
    content is a mapping with a [configuration] field, and that field could be
    encoded again and decoded into the configuration model; the result is the
    entity translated from that model. *)
Theorem GetConfiguration_succeeds_iff :
  forall c cm deviceID log (conf : entities_DeviceConfiguration E),
    (client.GetConfiguration P c cm deviceID log).1.1 = (conf, None) <->
    exists request res data message m v j model,
      client.Build P (client.configurationRequest c deviceID) = inl request /\
      (client.do P c cm request log).1.1 = inl res /\
      Body res = inl data /\
      client.json_UnmarshalMessage P data = inl message /\
      Content message = AMap m /\
      m !! "configuration" = Some v /\
      client.json_Marshal P v = inl j /\
      client.json_UnmarshalConfiguration P j = inl model /\
      conf = client.configurationModel2Entity P model.
Proof.
  intros c cm deviceID log conf. rewrite GetConfiguration_outcome.
  destruct (client.Build P _) as [request|e].
  2: { split; [done|]. by intros (? & ? & ? & ? & ? & ? & ? & ? & Hb & _). }
  destruct ((client.do P c cm request log).1.1) as [res|err] eqn:Hdo.
  2: { split; [done|].
       intros (? & ? & ? & ? & ? & ? & ? & ? & [= <-] & Hres & _). by rewrite Hdo in Hres. }
  rewrite configurationDecode_ok. split.
  - intros (message & m & v & j & model
            & (data & Hb & Hd)%processResponse_ok & Hm & Hv & Hj & Hmodel & ->).
    exists request, res, data, message, m, v, j, model. eauto 12.
  - intros (? & res' & data & message & m & v & j & model
            & [= <-] & Hres & Hb & Hd & Hm & Hv & Hj & Hmodel & ->).
    rewrite Hdo in Hres. injection Hres as <-.
    exists message, m, v, j, model. rewrite processResponse_ok. eauto 12.
Qed.

End DecodingFailures.

Section Construction.

Context {E : Entities} (P : @client.Platform E).

(** X13.  [New] returns either a client or an error, never both and never
    neither.  It returns a client exactly when a certificate manager is given
    and the address parses; the client then holds the parsed address, the
    logging wrapper alone, the empty signature and no transport.  A missing
    manager is reported whatever the address is. *)
Theorem New_client_or_error :
  forall (path : string) (certManager : option certificate.Manager),
    let out := client.New P path certManager in
    (out.1 = None <-> out.2 <> None) /\
    (forall c,
       out = (Some c, None) <->
       exists cm url,
         certManager = Some cm /\ client.url_Parse P path = inl url /\
         c = {| client.certificateSignature := [];
                client.serverURL := url;
                client.transportWrappers := [client.logTransportWrapper_Wrap P];
                client.transport := None |}) /\
    (certManager = None -> out = (None, Some "Certificate manager is missing")) /\
    (forall cm err,
       certManager = Some cm -> client.url_Parse P path = inr err ->
       out = (None, Some ("Server address error: " +:+ err))).
Proof.
  intros path certManager out. subst out. unfold client.New.
  destruct certManager as [cm|].
  - destruct (client.url_Parse P path) as [url|e] eqn:Hurl; simpl.
    + split; [split; done|]. split; [|split; [done|]].
      * intros c. split.
        -- intros [= <-]. by exists cm, url.
        -- intros (cm' & url' & _ & [= <-] & ->). done.
      * intros cm' err _ [=].
    + split; [split; done|]. split; [|split; [done|]].
      * intros c. split; [done|]. by intros (cm' & url' & _ & [=] & _).
      * by intros cm' err _ [= <-].
  - simpl. split; [split; done|]. split; [|split; [done|]].
    + intros c. split; [done|]. by intros (cm' & url' & [=] & _).
    + by intros cm' err [=].
Qed.

(** X14.  Wrapping composes: the loop of [createTransport] over the
    wrappers [ws1] followed by [ws2] gives what the loop over [ws1] gives on
    the result of the loop over [ws2], and over no wrapper at all it gives the
    base transport. *)
Theorem wrapBackwards_app :
  forall (ws1 ws2 : list (@client.transportWrapper E)) (base : @client.RoundTripper E),
    client.wrapBackwards (ws1 ++ ws2) (length (ws1 ++ ws2)) base =
      client.wrapBackwards ws1 (length ws1)
        (client.wrapBackwards ws2 (length ws2) base) /\
    client.wrapBackwards [] (length ([] : list (@client.transportWrapper E))) base = base.
Proof.
  intros ws1 ws2 base. split; [|done].
  rewrite !wrapBackwards_nest. unfold nest. apply foldr_app.
Qed.

End Construction.

Section StartUp.

Context (os_ReadFile : string -> bytes + string).
Context (certificate_New : list bytes -> bytes -> bytes -> certificate.Manager + string).

(** X15.  [initCertificateManager] returns a manager exactly when the CA
    file, the certificate file and the key file can all be read and
    [certificate.New] accepts their contents, the CA file as the only root.
    Otherwise it returns the error of the first step that fails, in the order
    CA file, certificate file, key file, constructor. *)
Theorem initCertificateManager_first_failure :
  forall caroot certFile keyFile : string,
    let out := cmd.initCertificateManager os_ReadFile certificate_New caroot certFile keyFile in
    (forall m,
       out = inl m <->
       exists caRoot cert privateKey,
         os_ReadFile caroot = inl caRoot /\ os_ReadFile certFile = inl cert /\
         os_ReadFile keyFile = inl privateKey /\
         certificate_New [caRoot] cert privateKey = inl m) /\
    (forall err, os_ReadFile caroot = inr err -> out = inr err) /\
    (forall caRoot err,
       os_ReadFile caroot = inl caRoot -> os_ReadFile certFile = inr err -> out = inr err) /\
    (forall caRoot cert err,
       os_ReadFile caroot = inl caRoot -> os_ReadFile certFile = inl cert ->
       os_ReadFile keyFile = inr err -> out = inr err) /\
    (forall caRoot cert privateKey err,
       os_ReadFile caroot = inl caRoot -> os_ReadFile certFile = inl cert ->
       os_ReadFile keyFile = inl privateKey ->
       certificate_New [caRoot] cert privateKey = inr err -> out = inr err).
Proof.
  intros caroot certFile keyFile out. subst out. unfold cmd.initCertificateManager.
  split; [|split; [|split; [|split]]].
  - intros m.
    destruct (os_ReadFile caroot) as [caRoot|e].
    2: { split; [done|]. by intros (? & ? & ? & [=] & _). }
    destruct (os_ReadFile certFile) as [cert|e].
    2: { split; [done|]. by intros (? & ? & ? & _ & [=] & _). }
    destruct (os_ReadFile keyFile) as [privateKey|e].
    2: { split; [done|]. by intros (? & ? & ? & _ & _ & [=] & _). }
    destruct (certificate_New [caRoot] cert privateKey) as [m'|e] eqn:HNew.
    + split.
      * intros [= <-]. by exists caRoot, cert, privateKey.
      * intros (? & ? & ? & [= <-] & [= <-] & [= <-] & Hm). congruence.
    + split; [done|]. intros (? & ? & ? & [= <-] & [= <-] & [= <-] & Hm). congruence.
  - by intros err ->.
  - by intros caRoot err -> ->.
  - by intros caRoot cert err -> -> ->.
  - by intros caRoot cert privateKey err -> -> -> ->.
Qed.

End StartUp.

(** * Further properties of the profile manager *)

Section ManagerRuns.

Context {metricValue DeviceProfile chan S Ev : Type}.
Context `{!@state.MetricServer chan S} `{!@state.Evaluator metricValue Ev}.
Context (newProfileEvaluator : gmap string DeviceProfile -> Ev) (newMetricServer : S).

Local Abbreviation turn := (state.turn newProfileEvaluator newMetricServer).
Local Abbreviation run := (state.run newProfileEvaluator newMetricServer).
Implicit Types (m : @state.Manager chan S Ev) (s : @state.selected metricValue DeviceProfile).

Lemma turn_output m s m' :
  turn m s = Some m' ->
  exists sent,
    state.OutputCh m' = state.OutputCh m ++ sent /\
    (length sent <= if isTick s then 1 else 0)%nat.
Proof.
  destruct s as [opt|v| |]; simpl.
  - destruct (state.None_ opt), (state.metricServer m);
      intros [= <-]; exists []; by rewrite app_nil_r.
  - destruct (state.profileEvaluator m); intros [= <-]; exists []; by rewrite app_nil_r.
  - destruct (state.profileEvaluator m) as [ev|].
    + destruct (state.Evaluate ev) as [[results [err|]] ev']; intros [= <-]; simpl.
      * exists [results]. split; [done|simpl; lia].
      * exists []. rewrite app_nil_r. split; [done|simpl; lia].
    + intros [= <-]. exists []. rewrite app_nil_r. split; [done|simpl; lia].
  - done.
Qed.

(** X16.  What has been sent on the output channel stays sent: a run of the
    manager only appends to it, at most one value per tick, and nothing on a
    profile event or a metric sample. *)
Theorem run_output_grows_by_ticks :
  forall (ss : list (@state.selected metricValue DeviceProfile)) m,
    exists sent,
      state.OutputCh (run m ss) = state.OutputCh m ++ sent /\
      (length sent <= length (filter (fun s => isTick s = true) ss))%nat.
Proof.
  induction ss as [|s ss IH]; intros m; simpl.
  - exists []. by rewrite app_nil_r.
  - destruct (turn m s) as [m'|] eqn:Hturn.
    + destruct (turn_output _ _ _ Hturn) as (sent1 & Hsent1 & Hlen1).
      destruct (IH m') as (sent2 & Hsent2 & Hlen2).
      exists (sent1 ++ sent2). rewrite Hsent2, Hsent1, <- app_assoc. split; [done|].
      rewrite length_app, filter_cons.
      destruct (isTick s); simpl in *; [|destruct (decide (false = true)) as [?|_]; [done|]];
        simpl; lia.
    + exists []. rewrite app_nil_r. split; [done|]. simpl. lia.
Qed.

(** X17.  Cancellation ends the run: the cases after the first [ctxDone]
    have no effect on the manager. *)
Theorem run_stops_at_ctxDone :
  forall (ss1 ss2 : list (@state.selected metricValue DeviceProfile)) m,
    run m (ss1 ++ state.ctxDone :: ss2) = run m ss1.
Proof.
  induction ss1 as [|s ss1 IH]; intros ss2 m; simpl; [done|].
  destruct (turn m s) as [m'|]; [apply IH|done].
Qed.

(** X18.  Until a set of profiles arrives the manager does nothing: from
    its initial state, with no evaluator and no metric server, ticks, metric
    samples and empty profile events leave it as it is, and nothing is sent. *)
Theorem run_idle_without_profiles :
  forall (ss : list (@state.selected metricValue DeviceProfile)),
    Forall (fun s => setsProfiles s = false) ss ->
    run state.New ss = state.New.
Proof.
  intros ss Hall. induction Hall as [|s ss Hs _ IH]; simpl; [done|].
  destruct s as [opt|v| |]; simpl in *; try done.
  by destruct (state.None_ opt).
Qed.

Lemma turn_keeps_stopped m s m' :
  state.metricChannel m = None -> state.metricServer m <> None ->
  turn m s = Some m' ->
  state.metricChannel m' = None /\ state.metricServer m' <> None.
Proof.
  intros Hch Hms. destruct s as [opt'|v| |]; simpl.
  - destruct (state.None_ opt'), (state.metricServer m) eqn:Hm;
      intros [= <-]; simpl; done.
  - destruct (state.profileEvaluator m); by intros [= <-].
  - destruct (state.profileEvaluator m) as [ev|]; [|by intros [= <-]].
    by destruct (state.Evaluate ev) as [[results [err|]] ev']; intros [= <-].
  - done.
Qed.

Lemma stopped_run m (ss : list (@state.selected metricValue DeviceProfile)) :
  state.metricChannel m = None -> state.metricServer m <> None ->
  (state.metricChannel (run m ss) = None /\ state.metricServer (run m ss) <> None) /\
  (admissible newProfileEvaluator newMetricServer m ss = true ->
   Forall (fun s => isMetric s = false) ss).
Proof.
  revert m. induction ss as [|s ss IH]; intros m Hch Hms; simpl; [done|].
  destruct (turn m s) as [m'|] eqn:Hturn.
  - destruct (turn_keeps_stopped _ _ _ Hch Hms Hturn) as [Hch' Hms'].
    destruct (IH m' Hch' Hms') as [Hstate Htrace]. split; [done|].
    intros [Hsel Hadm]%andb_true_iff. constructor; [|by apply Htrace].
    destruct s; try done. simpl in Hsel. by rewrite Hch in Hsel.
  - split; [done|]. intros [Hsel Hadm]%andb_true_iff.
    destruct ss; [|done]. constructor; [|done].
    destruct s; try done. simpl in Hsel. by rewrite Hch in Hsel.
Qed.

(** X19.  A stopped metric server is not started again.  Once an empty
    profile event has shut the server down, the manager keeps the stopped
    server and its metric channel stays nil through every later case, a new
    set of profiles included; and as [select] never takes a receive from a nil
    channel, no run it can produce has a metric sample after the stop. *)
Theorem run_never_reopens_metric_channel :
  forall m (srv : S) (opt : state.Option_ (gmap string DeviceProfile))
         (ss : list (@state.selected metricValue DeviceProfile)),
    state.metricServer m = Some srv ->
    state.None_ opt = true ->
    let m' := run m (state.recvOpt opt :: ss) in
    state.metricChannel m' = None /\ state.metricServer m' <> None /\
    (admissible newProfileEvaluator newMetricServer m (state.recvOpt opt :: ss) = true ->
     Forall (fun s => isMetric s = false) ss).
Proof.
  intros m srv opt ss Hsrv Hnone m'. subst m'. simpl. rewrite Hnone, Hsrv.
  set (m1 := {| state.OutputCh := _ |}).
  destruct (stopped_run m1 ss) as [[Hch Hms] Htrace]; [done|done|].
  split; [done|]. split; [done|]. exact Htrace.
Qed.

End ManagerRuns.

(** * The further properties on concrete runs *)

(** A fresh client meets the manager with fingerprint 01 twice. *)
Lemma getClient_twice_witness :
  let P := mock.platform (inl mock.ok200) mock.decode in
  let out := client.getClient P (mock.fresh P) mock.cm1 [] in
  out.2 = [client.recreateMsg] /\
  client.getClient P out.1.2 mock.cm1 [] = (out.1.1, out.1.2, []).
Proof.
  split; [reflexivity|].
  set (P := mock.platform (inl mock.ok200) mock.decode).
  assert (Hget : exists cl c1 log1,
            client.getClient P (mock.fresh P) mock.cm1 [] = (inl cl, c1, log1)).
  { eexists. eexists. eexists. lazy. reflexivity. }
  destruct Hget as (cl & c1 & log1 & Hget).
  pose proof (getClient_twice_same_client P _ _ _ _ _ _ [] Hget) as (_ & _ & _ & H).
  rewrite Hget. exact H.
Defined.

(** A device whose certificate has become unusable tries to enrol. *)
Lemma operations_fail_on_tls_error_witness :
  let P := mock.platform (inl mock.ok200) mock.decode in
  let c := (client.getClients P (mock.fresh P) [mock.cm1] []).1 in
  client.certificateSignature c <> certificate.Signature mock.cmBad /\
  client.Enrol P c mock.cmBad "d1" "info" [] =
  (Some ("cannot enrol device 'cannot create x509 key pair: "
         +:+ "tls: failed to find any PEM data in certificate input'"),
   c, [client.recreateMsg]).
Proof.
  assert (Hne : client.certificateSignature
                  (client.getClients (mock.platform (inl mock.ok200) mock.decode)
                     (mock.fresh (mock.platform (inl mock.ok200) mock.decode)) [mock.cm1] []).1
                <> certificate.Signature mock.cmBad) by (vm_compute; discriminate).
  split; [exact Hne|].
  exact (proj1 (operations_fail_on_tls_error
                  (mock.platform (inl mock.ok200) mock.decode) _ mock.cmBad "d1" []
                  "cannot create x509 key pair: tls: failed to find any PEM data in certificate input"
                  Hne eq_refl) "info"
               "https://fleet:8043//api/flotta-management/v1/data/d1/out" eq_refl).
Defined.

(** An operation on a platform whose builder rejects the request, while the
    fingerprint has changed. *)
Lemma operations_build_error_witness :
  let P := failing.noBuilder (inl mock.ok200) in
  client.Build P (client.heartbeatRequest (mock.fresh P) "d1" "beat") =
    inr "unsupported payload" /\
  client.Heartbeat P (mock.fresh P) mock.cm1 "d1" "beat" [] =
  (Some "cannot create heartbeat request 'unsupported payload'", mock.fresh P, []).
Proof.
  split; [reflexivity|].
  exact (proj1 (proj2 (proj2 (operations_build_error_untouched
                  (failing.noBuilder (inl mock.ok200)) (mock.fresh _) mock.cm1 "d1" []
                  "unsupported payload"))) "beat" eq_refl).
Defined.

(** The backend answers [{"content":null}]. *)
Lemma decoding_rejects_null_content_witness :
  let res := {| StatusCode := 200; Body := inl failing.nullBody |} in
  let P := mock.platform (inl res) failing.decodeNull in
  client.json_UnmarshalMessage P failing.nullBody = inl {| Content := ANil |} /\
  (client.Register P (mock.fresh P) mock.cm1 "d1" "info" []).1.1 =
    Returns ({| SignedCSR := [] |}, Some "payload content is not a map") /\
  (client.GetConfiguration P (mock.fresh P) mock.cm1 "d1" []).1.1 =
    (ANil : entities_DeviceConfiguration mock.entities, Some "payload content is not a map").
Proof.
  split; [reflexivity|].
  set (res := {| StatusCode := 200; Body := inl failing.nullBody |}).
  set (P := mock.platform (inl res) failing.decodeNull).
  assert (Hout : exists c' log',
            client.do P (mock.fresh P) mock.cm1
              "https://fleet:8043//api/flotta-management/v1/data/d1/out" [] =
            (inl res, c', log')).
  { eexists. eexists. lazy. reflexivity. }
  assert (Hin : exists c' log',
            client.do P (mock.fresh P) mock.cm1
              "https://fleet:8043//api/flotta-management/v1/data/d1/in" [] =
            (inl res, c', log')).
  { eexists. eexists. lazy. reflexivity. }
  destruct Hout as (c1 & l1 & Hout). destruct Hin as (c2 & l2 & Hin).
  assert (Hshape : forall m, Content {| Content := ANil |} <> AMap m) by (intros m; discriminate).
  split.
  - exact (f_equal (fun out => out.1.1)
             (proj1 (decoding_rejects_content_that_is_no_map P (mock.fresh P) mock.cm1 "d1" []
                       res c1 l1 failing.nullBody {| Content := ANil |}
                       eq_refl eq_refl Hshape) "info" _ eq_refl Hout)).
  - exact (f_equal (fun out => out.1.1)
             (proj2 (decoding_rejects_content_that_is_no_map P (mock.fresh P) mock.cm1 "d1" []
                       res c2 l2 failing.nullBody {| Content := ANil |}
                       eq_refl eq_refl Hshape) _ eq_refl Hin)).
Defined.

(** Ticks, a sample and an empty profile event before any profile. *)
Lemma run_idle_witness :
  let ss := [state.tick; state.recvMetric 7%nat; failing.clear; state.tick] in
  Forall (fun s => setsProfiles s = false) ss /\
  failing.run state.New ss = state.New.
Proof.
  assert (Hall : Forall (fun s : @state.selected nat unit => setsProfiles s = false)
                   [state.tick; state.recvMetric 7%nat; failing.clear; state.tick]).
  { repeat constructor. }
  split; [exact Hall|].
  exact (run_idle_without_profiles (fun _ => []) true _ Hall).
Defined.

(** The profiles are cleared and set again: the metric channel stays nil,
    and the run has no metric sample after the clearing. *)
Lemma run_never_reopens_witness :
  let ss := [failing.profiles; state.tick; state.tick] in
  let m := failing.run (mock.managing []) (failing.clear :: ss) in
  state.metricServer (mock.managing []) = Some true /\
  @admissible nat unit nat bool mock.scripted mock.bool_MetricServer mock.scripted_Evaluator
    (fun _ => []) true (mock.managing []) (failing.clear :: ss) = true /\
  state.metricChannel m = None /\ state.metricServer m <> None /\
  Forall (fun s => isMetric s = false) ss.
Proof.
  split; [reflexivity|]. split; [reflexivity|].
  pose proof (@run_never_reopens_metric_channel nat unit nat bool mock.scripted
                mock.bool_MetricServer mock.scripted_Evaluator
                (fun _ => []) true (mock.managing []) true
                {| state.None_ := true; state.Value := ∅ |}
                [failing.profiles; state.tick; state.tick] eq_refl eq_refl) as H.
  cbv zeta in H. destruct H as (Hch & Hms & Htrace).
  split; [exact Hch|]. split; [exact Hms|]. exact (Htrace eq_refl).
Defined.

(** A metric sample can be selected while the server runs, and not after the
    profiles were cleared, also when new profiles have been set since. *)
Example admissible_metric_samples :
  let adm := @admissible nat unit nat bool mock.scripted mock.bool_MetricServer
               mock.scripted_Evaluator (fun _ => []) true (mock.managing []) in
  adm [state.recvMetric 7%nat; failing.clear] = true /\
  adm [failing.clear; state.recvMetric 7%nat] = false /\
  adm [failing.clear; failing.profiles; state.recvMetric 7%nat] = false.
Proof. repeat split; reflexivity. Qed.

(** The certificate files of a device, and one of them missing. *)
Example initCertificateManager_files :
  cmd.initCertificateManager failing.files failing.newManager "ca.pem" "cert.pem" "key.pem" =
    inl (mock.manager [Byte.x03] [Byte.x02]) /\
  cmd.initCertificateManager failing.files failing.newManager "ca.pem" "none.pem" "gone.pem" =
    inr "open none.pem: no such file or directory".
Proof. split; reflexivity. Qed.
